(** * Tool map manager: a shallow embedding of the session tool registry

    The development follows the two source modules:
    - [tool_entry_dto.py]: the per-tool record [ToolEntryDTO] with its
      statistics, bounded history, error tracking and query scoring;
    - [tool_map_manager.py]: the registry [ToolMapManager] with
      registration, removal, single and batch execution.

    Modelling conventions.
    - Python [str] is [string]; the texts handled are ASCII, so [str.lower]
      is the letter-wise ASCII lowering.
    - Python [int] is [Z]; Python [float] (scores, durations) is modelled
      by exact rationals [Q].
    - A Python [dict] with string keys is a [gmap string _]; dynamically
      typed values are the inductive [PyVal].
    - [datetime.now()] and the elapsed time of a call are inputs of the
      operations that read the clock.
    - An [async] method body is run without interleaving: a call into a
      tool ([initialize], [execute]) is one step whose outcome the tool
      decides. Exceptions are instances of Python's [Exception], carried as
      the text [str(e)]. *)

From Stdlib Require Import ZArith QArith Lqa Ascii String List Lia Sorted Permutation.
From stdpp Require Import gmap strings list fin_maps.

Set Warnings "-register-all".

Local Open Scope Z_scope.
Local Open Scope string_scope.

(** ** Python values *)

Inductive PyVal : Type :=
| VNone
| VBool (b : bool)
| VInt (z : Z)
| VFloat (q : Q)
| VStr (s : string)
| VList (l : list PyVal)
| VDict (d : gmap string PyVal).

Abbreviation Dict := (gmap string PyVal).

(** Truth value of an object, as tested by [if x:]. *)
Definition truthy (v : PyVal) : bool :=
  match v with
  | VNone => false
  | VBool b => b
  | VInt z => negb (z =? 0)%Z
  | VFloat q => negb (Qeq_bool q 0)
  | VStr s => negb (String.eqb s "")
  | VList l => match l with [] => false | _ => true end
  | VDict d => match map_to_list d with [] => false | _ => true end
  end.

(** [d.get(k, default)] and [d.get(k)]. *)
Definition dict_get (d : Dict) (k : string) (default : PyVal) : PyVal :=
  match d !! k with Some v => v | None => default end.

Definition dict_get_truthy (d : Dict) (k : string) : bool :=
  truthy (dict_get d k VNone).

(** ** Strings *)

Module Str.

Definition lower_ascii (c : ascii) : ascii :=
  let n := nat_of_ascii c in
  if ((65 <=? n)%nat && (n <=? 90)%nat)%bool then ascii_of_nat (n + 32) else c.

(** [s.lower()] *)
Fixpoint lower (s : string) : string :=
  match s with
  | EmptyString => EmptyString
  | String c r => String (lower_ascii c) (lower r)
  end.

Fixpoint starts_with (p s : string) : bool :=
  match p, s with
  | EmptyString, _ => true
  | String _ _, EmptyString => false
  | String a p', String b s' => if Ascii.eqb a b then starts_with p' s' else false
  end.

(** [needle in hay] on strings. *)
Fixpoint str_in (needle hay : string) : bool :=
  (starts_with needle hay ||
   match hay with
   | EmptyString => false
   | String _ h => str_in needle h
   end)%bool.

(** The characters [str.split()] treats as separators (ASCII range). *)
Definition is_space (c : ascii) : bool :=
  let n := nat_of_ascii c in
  (((9 <=? n)%nat && (n <=? 13)%nat) || ((28 <=? n)%nat && (n <=? 32)%nat))%bool.

Fixpoint split_go (cur : string) (s : string) : list string :=
  match s with
  | EmptyString => match cur with EmptyString => [] | _ => [cur] end
  | String c r =>
      if is_space c
      then match cur with
           | EmptyString => split_go EmptyString r
           | _ => cur :: split_go EmptyString r
           end
      else split_go (cur ++ String c EmptyString) r
  end.

(** [s.split()]: maximal runs of non-separator characters. *)
Definition split (s : string) : list string := split_go EmptyString s.

(** [s[:n]] *)
Fixpoint take (n : nat) (s : string) : string :=
  match n, s with
  | O, _ => EmptyString
  | S _, EmptyString => EmptyString
  | S n', String c r => String c (take n' r)
  end.

(** [s.replace('\n', ' ')] *)
Fixpoint newlines_to_spaces (s : string) : string :=
  match s with
  | EmptyString => EmptyString
  | String c r =>
      String (if Ascii.eqb c "010"%char then " "%char else c) (newlines_to_spaces r)
  end.


End Str.

(** ** Tool entries ([tool_entry_dto.py]) *)

Inductive ToolStatusENUM : Type :=
| UNINITIALIZED
| READY
| EXECUTING
| ERROR
| DISABLED.

Definition status_value (s : ToolStatusENUM) : string :=
  match s with
  | UNINITIALIZED => "uninitialized"
  | READY => "ready"
  | EXECUTING => "executing"
  | ERROR => "error"
  | DISABLED => "disabled"
  end.

Definition status_eqb (a b : ToolStatusENUM) : bool :=
  match a, b with
  | UNINITIALIZED, UNINITIALIZED | READY, READY | EXECUTING, EXECUTING
  | ERROR, ERROR | DISABLED, DISABLED => true
  | _, _ => false
  end.

(** A [datetime] is kept as its ISO-8601 rendering. *)
Record datetime : Type := { isoformat : string }.

(** What a call of the tool's [initialize()] does. *)
Inductive InitOutcome : Type :=
| InitReturns (ok : bool)
| InitRaises (msg : string).

(** What a call of the tool's [execute(context)] does: it may mutate the
    context it was handed, and either returns a result map after [elapsed]
    seconds or raises. *)
Inductive ExecOutcome : Type :=
| Returns (result : Dict) (ctx' : Dict) (elapsed : Q)
| Raises (msg : string) (ctx' : Dict).

(** The tool instance behind an entry ([ToolInterface]); [tool_initialize]
    is [None] when the object has no [initialize] attribute. *)
Record ToolInstance : Type := {
  tool_initialize : option InitOutcome;
  tool_execute : Dict -> ExecOutcome
}.

Record ToolEntryDTO : Type := {
  tool_id : string;
  tool_instance : ToolInstance;
  name : string;
  description : string;
  category : string;
  handler_name : string;
  llm_config : Dict;
  system_prompt : string;
  capabilities : list string;
  keywords : list string;
  status : ToolStatusENUM;
  initialized_at : option datetime;
  last_executed : option datetime;
  execution_count : Z;
  total_execution_time : Q;
  average_execution_time : Q;
  execution_history : list Dict;
  max_history_size : Z;
  error_count : Z;
  last_error : option string;
  last_error_time : option datetime;
  metadata : Dict
}.

Definition set_status (e : ToolEntryDTO) (s : ToolStatusENUM) : ToolEntryDTO :=
  {| tool_id := tool_id e; tool_instance := tool_instance e; name := name e;
     description := description e; category := category e;
     handler_name := handler_name e; llm_config := llm_config e;
     system_prompt := system_prompt e; capabilities := capabilities e;
     keywords := keywords e; status := s;
     initialized_at := initialized_at e; last_executed := last_executed e;
     execution_count := execution_count e;
     total_execution_time := total_execution_time e;
     average_execution_time := average_execution_time e;
     execution_history := execution_history e;
     max_history_size := max_history_size e; error_count := error_count e;
     last_error := last_error e; last_error_time := last_error_time e;
     metadata := metadata e |}.

Definition set_initialized_at (e : ToolEntryDTO) (t : datetime) : ToolEntryDTO :=
  {| tool_id := tool_id e; tool_instance := tool_instance e; name := name e;
     description := description e; category := category e;
     handler_name := handler_name e; llm_config := llm_config e;
     system_prompt := system_prompt e; capabilities := capabilities e;
     keywords := keywords e; status := status e;
     initialized_at := Some t; last_executed := last_executed e;
     execution_count := execution_count e;
     total_execution_time := total_execution_time e;
     average_execution_time := average_execution_time e;
     execution_history := execution_history e;
     max_history_size := max_history_size e; error_count := error_count e;
     last_error := last_error e; last_error_time := last_error_time e;
     metadata := metadata e |}.

Definition set_execution_history (e : ToolEntryDTO) (h : list Dict) : ToolEntryDTO :=
  {| tool_id := tool_id e; tool_instance := tool_instance e; name := name e;
     description := description e; category := category e;
     handler_name := handler_name e; llm_config := llm_config e;
     system_prompt := system_prompt e; capabilities := capabilities e;
     keywords := keywords e; status := status e;
     initialized_at := initialized_at e; last_executed := last_executed e;
     execution_count := execution_count e;
     total_execution_time := total_execution_time e;
     average_execution_time := average_execution_time e;
     execution_history := h;
     max_history_size := max_history_size e; error_count := error_count e;
     last_error := last_error e; last_error_time := last_error_time e;
     metadata := metadata e |}.

(** [update_execution_stats(execution_time)] *)
Definition update_execution_stats (e : ToolEntryDTO) (execution_time : Q)
    (now : datetime) : ToolEntryDTO :=
  let count := execution_count e + 1 in
  let total := (total_execution_time e + execution_time)%Q in
  {| tool_id := tool_id e; tool_instance := tool_instance e; name := name e;
     description := description e; category := category e;
     handler_name := handler_name e; llm_config := llm_config e;
     system_prompt := system_prompt e; capabilities := capabilities e;
     keywords := keywords e; status := status e;
     initialized_at := initialized_at e; last_executed := Some now;
     execution_count := count;
     total_execution_time := total;
     average_execution_time := (total / inject_Z count)%Q;
     execution_history := execution_history e;
     max_history_size := max_history_size e; error_count := error_count e;
     last_error := last_error e; last_error_time := last_error_time e;
     metadata := metadata e |}.

(** [l[-m:]] for a Python slice with a negative-written lower bound [-m]:
    the last [m] elements when [m > 0]; the whole list when [m = 0]
    (the bound is then [0]); the list without its first [-m] elements when
    [m < 0] (the bound is then the positive index [-m]). *)
Definition slice_from_neg {A : Type} (l : list A) (m : Z) : list A :=
  if (0 <? m)%Z then drop (length l - Z.to_nat m) l
  else drop (Z.to_nat (- m)) l.

(** [if "timestamp" not in entry: entry["timestamp"] = now.isoformat()] *)
Definition stamped (entry : Dict) (now : datetime) : Dict :=
  match entry !! "timestamp" with
  | Some _ => entry
  | None => <["timestamp" := VStr (isoformat now)]> entry
  end.

(** [add_to_execution_history(entry)] *)
Definition add_to_execution_history (e : ToolEntryDTO) (entry : Dict)
    (now : datetime) : ToolEntryDTO :=
  let entry := stamped entry now in
  let history := (execution_history e ++ [entry])%list in
  if (max_history_size e <? Z.of_nat (length history))%Z
  then set_execution_history e (slice_from_neg history (max_history_size e))
  else set_execution_history e history.

(** [record_error(error)] *)
Definition record_error (e : ToolEntryDTO) (error : string) (now : datetime)
    : ToolEntryDTO :=
  let e1 :=
    {| tool_id := tool_id e; tool_instance := tool_instance e; name := name e;
       description := description e; category := category e;
       handler_name := handler_name e; llm_config := llm_config e;
       system_prompt := system_prompt e; capabilities := capabilities e;
       keywords := keywords e; status := ERROR;
       initialized_at := initialized_at e; last_executed := last_executed e;
       execution_count := execution_count e;
       total_execution_time := total_execution_time e;
       average_execution_time := average_execution_time e;
       execution_history := execution_history e;
       max_history_size := max_history_size e;
       error_count := error_count e + 1;
       last_error := Some error; last_error_time := Some now;
       metadata := metadata e |} in
  add_to_execution_history e1
    (<["error" := VStr error]>
       (<["success" := VBool false]>
          (<["timestamp" := VStr (isoformat now)]> ∅)))
    now.

Definition is_ready (e : ToolEntryDTO) : bool := status_eqb (status e) READY.

Definition is_available (e : ToolEntryDTO) : bool :=
  (status_eqb (status e) READY || status_eqb (status e) UNINITIALIZED)%bool.

(** [min(a, b)] on floats. *)
Definition py_min (a b : Q) : Q := if Qlt_le_dec b a then b else a.

(** The score before the final cap, in the order the source accumulates it. *)
Definition keyword_score (kws : list string) (query_lower : string) (score : Q) : Q :=
  fold_left
    (fun sc kw => if Str.str_in (Str.lower kw) query_lower then (sc + 0.4)%Q else sc)
    kws score.

Definition capability_score (caps : list string) (query_lower : string) (score : Q) : Q :=
  fold_left
    (fun sc cap => if Str.str_in (Str.lower cap) query_lower then (sc + 0.3)%Q else sc)
    caps score.

Definition raw_score (e : ToolEntryDTO) (query : string) : Q :=
  let query_lower := Str.lower query in
  let score := 0%Q in
  let score := keyword_score (keywords e) query_lower score in
  let score := capability_score (capabilities e) query_lower score in
  let score :=
    if Str.str_in (Str.lower (name e)) query_lower then (score + 0.2)%Q else score in
  let score :=
    if existsb (fun word => Str.str_in word query_lower)
         (Str.split (Str.lower (description e)))
    then (score + 0.1)%Q else score in
  score.

(** [matches_query(query)] *)
Definition matches_query (e : ToolEntryDTO) (query : string) : Q :=
  py_min (raw_score e query) 1.

(** [ToolEntryDTO(...)]: the dataclass constructor with the defaults of the
    fields the caller leaves out, followed by [__post_init__]. *)
Inductive Outcome (A : Type) : Type :=
| Ret (a : A)
| Exc (kind msg : string).
Arguments Ret {A} a.
Arguments Exc {A} kind msg.

Definition new_entry (tool_id : string) (tool_instance : ToolInstance)
    (name description handler_name : string) (llm_config : Dict)
    (system_prompt : string) (capabilities keywords : list string)
    (status : ToolStatusENUM) (metadata : Dict) : Outcome ToolEntryDTO :=
  if String.eqb tool_id ""
  then Exc "ValueError" "tool_id is required"
  else Ret
    {| tool_id := tool_id; tool_instance := tool_instance; name := name;
       description := description; category := "tool";
       handler_name := handler_name; llm_config := llm_config;
       system_prompt := system_prompt; capabilities := capabilities;
       keywords := keywords; status := status;
       initialized_at := None; last_executed := None;
       execution_count := 0;
       total_execution_time := 0%Q;
       average_execution_time := 0%Q;
       execution_history := [];
       max_history_size := 50; error_count := 0;
       last_error := None; last_error_time := None;
       metadata := metadata |}.

(** ** The registry ([tool_map_manager.py]) *)

(** The handle of a background initialization task. *)
Record Task : Type := { cancel_requested : bool }.

Record ToolMapManager : Type := {
  session_id : string;
  max_tools : Z;
  _tool_map : gmap string ToolEntryDTO;
  _initialization_tasks : gmap string Task;
  total_added : Z;
  total_removed : Z;
  total_executions : Z;
  created_at : datetime
}.

(** [ToolMapManager(session_id, max_tools)] *)
Definition new_manager (session_id : string) (max_tools : Z) (now : datetime)
    : ToolMapManager :=
  {| session_id := session_id; max_tools := max_tools;
     _tool_map := ∅; _initialization_tasks := ∅;
     total_added := 0; total_removed := 0; total_executions := 0;
     created_at := now |}.

Definition with_tool_map (self : ToolMapManager) (m : gmap string ToolEntryDTO)
    : ToolMapManager :=
  {| session_id := session_id self; max_tools := max_tools self;
     _tool_map := m; _initialization_tasks := _initialization_tasks self;
     total_added := total_added self; total_removed := total_removed self;
     total_executions := total_executions self;
     created_at := created_at self |}.

Definition with_tasks (self : ToolMapManager) (t : gmap string Task)
    : ToolMapManager :=
  {| session_id := session_id self; max_tools := max_tools self;
     _tool_map := _tool_map self; _initialization_tasks := t;
     total_added := total_added self; total_removed := total_removed self;
     total_executions := total_executions self;
     created_at := created_at self |}.

Definition incr_total_added (self : ToolMapManager) : ToolMapManager :=
  {| session_id := session_id self; max_tools := max_tools self;
     _tool_map := _tool_map self;
     _initialization_tasks := _initialization_tasks self;
     total_added := total_added self + 1; total_removed := total_removed self;
     total_executions := total_executions self;
     created_at := created_at self |}.

Definition incr_total_removed (self : ToolMapManager) : ToolMapManager :=
  {| session_id := session_id self; max_tools := max_tools self;
     _tool_map := _tool_map self;
     _initialization_tasks := _initialization_tasks self;
     total_added := total_added self; total_removed := total_removed self + 1;
     total_executions := total_executions self;
     created_at := created_at self |}.

Definition incr_total_executions (self : ToolMapManager) : ToolMapManager :=
  {| session_id := session_id self; max_tools := max_tools self;
     _tool_map := _tool_map self;
     _initialization_tasks := _initialization_tasks self;
     total_added := total_added self; total_removed := total_removed self;
     total_executions := total_executions self + 1;
     created_at := created_at self |}.

(** A mutation of the entry object registered under [tool_id]. *)
Definition update_entry (self : ToolMapManager) (tool_id : string)
    (f : ToolEntryDTO -> ToolEntryDTO) : ToolMapManager :=
  with_tool_map self (alter f tool_id (_tool_map self)).

(** [count()] *)
Definition count (self : ToolMapManager) : Z := Z.of_nat (size (_tool_map self)).

(** [x or default] on an optional list or dict argument. *)
Definition list_or_empty (l : option (list string)) : list string :=
  match l with Some l => l | None => [] end.

Definition dict_or_empty (d : option Dict) : Dict :=
  match d with Some d => d | None => ∅ end.

Definition str_or (s default : string) : string :=
  if String.eqb s "" then default else s.

(** [add_tool(tool_id, tool_instance, name, ...)]. The background task the
    source spawns for a tool with an [initialize] method is recorded as a
    pending handle; it runs later, see [background_init]. *)
Definition add_tool (self : ToolMapManager) (tool_id : string)
    (tool_instance : ToolInstance) (name description handler_name : string)
    (llm_config : option Dict) (system_prompt : string)
    (capabilities keywords : option (list string)) (metadata : option Dict)
    (now : datetime) : Outcome bool * ToolMapManager :=
  if (count self >=? max_tools self)%Z then (Ret false, self)
  else if decide (is_Some (_tool_map self !! tool_id)) then (Ret false, self)
  else
    match new_entry tool_id tool_instance (str_or name tool_id)
            (str_or description "") (str_or handler_name "")
            (dict_or_empty llm_config) (str_or system_prompt "")
            (list_or_empty capabilities) (list_or_empty keywords)
            UNINITIALIZED (dict_or_empty metadata) with
    | Exc kind msg => (Exc kind msg, self)
    | Ret entry =>
        let self := with_tool_map self (<[tool_id := entry]> (_tool_map self)) in
        let self := incr_total_added self in
        match tool_initialize tool_instance with
        | Some _ =>
            (Ret true,
             with_tasks self
               (<[tool_id := {| cancel_requested := false |}]>
                  (_initialization_tasks self)))
        | None =>
            (Ret true,
             update_entry self tool_id
               (fun e => set_initialized_at (set_status e READY) now))
        end
    end.

(** [remove_tool(tool_id)] *)
Definition remove_tool (self : ToolMapManager) (tool_id : string)
    : bool * ToolMapManager :=
  match _tool_map self !! tool_id with
  | None => (false, self)
  | Some _ =>
      let self := with_tasks self (delete tool_id (_initialization_tasks self)) in
      let self := with_tool_map self (delete tool_id (_tool_map self)) in
      (true, incr_total_removed self)
  end.

(** [get_tool(tool_id)] *)
Definition get_tool (self : ToolMapManager) (tool_id : string)
    : option ToolEntryDTO :=
  _tool_map self !! tool_id.

(** [_initialize_tool(tool_id)] *)
Definition _initialize_tool (self : ToolMapManager) (tool_id : string)
    (now : datetime) : ToolMapManager :=
  let self :=
    match _tool_map self !! tool_id with
    | None => self
    | Some entry =>
        match tool_initialize (tool_instance entry) with
        | Some (InitReturns true) =>
            update_entry self tool_id
              (fun e => set_initialized_at (set_status e READY) now)
        | Some (InitReturns false) =>
            update_entry self tool_id (fun e => set_status e ERROR)
        | Some (InitRaises msg) =>
            update_entry self tool_id
              (fun e => record_error (set_status e ERROR) msg now)
        | None =>
            update_entry self tool_id
              (fun e => set_initialized_at (set_status e READY) now)
        end
    end in
  with_tasks self (delete tool_id (_initialization_tasks self)).

(** [_ensure_tool_initialized(tool_id)] *)
Definition _ensure_tool_initialized (self : ToolMapManager) (tool_id : string)
    (now : datetime) : ToolMapManager :=
  match _tool_map self !! tool_id with
  | None => self
  | Some entry =>
      if status_eqb (status entry) UNINITIALIZED
      then _initialize_tool self tool_id now
      else self
  end.

(** The scheduler runs the pending, not cancelled, initialization task of
    [tool_id] to its end. *)
Definition background_init (self : ToolMapManager) (tool_id : string)
    (now : datetime) : ToolMapManager :=
  match _initialization_tasks self !! tool_id with
  | Some {| cancel_requested := false |} => _initialize_tool self tool_id now
  | _ => self
  end.

(** [cleanup()] *)
Definition cleanup (self : ToolMapManager) : ToolMapManager :=
  let self :=
    with_tasks self
      ((fun _ => {| cancel_requested := true |}) <$> _initialization_tasks self) in
  foldl (fun self tool_id => snd (remove_tool self tool_id))
    self (map fst (map_to_list (_tool_map self))).

(** The failure result [{"success": False, "error": ..., "tool": ...}]. *)
Definition failure_result (error tool : string) : Dict :=
  <["success" := VBool false]>
    (<["error" := VStr error]> (<["tool" := VStr tool]> ∅)).

(** The clock readings one call of [execute_tool] may take. *)
Record Clock : Type := {
  now_init : datetime;
  now_stats : datetime;
  now_history : datetime;
  now_error : datetime
}.

(** The results map of a batch. *)
Record BatchResults : Type := {
  tools_executed : list string;
  tool_results : gmap string Dict;
  success : bool;
  total_time : Q
}.

(** What [asyncio.gather(..., return_exceptions=True)] hands back for one
    task: its return value, or the exception object it ended with. *)
Inductive GatherItem : Type :=
| GResult (result : Dict)
| GException (msg : string).

Section Execution.

(** [str(d)], the rendering of a result map. *)
Variable py_str : Dict -> string.

(** The record [execute_tool] appends to the history after a normal
    return. *)
Definition history_record (context result : Dict) (execution_time : Q) : Dict :=
  <["query" := dict_get context "query" (VStr "")]>
    (<["result" := VStr (Str.take 200 (Str.newlines_to_spaces (py_str result)))]>
       (<["success" := dict_get result "success" (VBool false)]>
          (<["execution_time" := VFloat execution_time]> ∅))).

(** [execute_tool(tool_id, context)]: the result, the registry afterwards
    and the context object afterwards. *)
Definition execute_tool (self : ToolMapManager) (tool_id : string)
    (context : Dict) (clk : Clock) : Dict * ToolMapManager * Dict :=
  match _tool_map self !! tool_id with
  | None =>
      (failure_result ("Tool " ++ tool_id ++ " not found") tool_id, self, context)
  | Some entry0 =>
      let self :=
        if status_eqb (status entry0) UNINITIALIZED
        then _ensure_tool_initialized self tool_id (now_init clk)
        else self in
      let entry := default entry0 (_tool_map self !! tool_id) in
      if negb (is_ready entry)
      then (failure_result
              ("Tool " ++ tool_id ++ " is not ready (status: "
               ++ status_value (status entry) ++ ")") tool_id,
            self, context)
      else
        let self := update_entry self tool_id (fun e => set_status e EXECUTING) in
        match tool_execute (tool_instance entry) context with
        | Returns result context execution_time =>
            let self :=
              update_entry self tool_id
                (fun e => update_execution_stats e execution_time (now_stats clk)) in
            let self := incr_total_executions self in
            let self :=
              update_entry self tool_id
                (fun e => add_to_execution_history e
                            (history_record context result execution_time)
                            (now_history clk)) in
            let self := update_entry self tool_id (fun e => set_status e READY) in
            (result, self, context)
        | Raises error_msg context =>
            let self :=
              update_entry self tool_id
                (fun e => record_error e error_msg (now_error clk)) in
            let self := update_entry self tool_id (fun e => set_status e READY) in
            (failure_result error_msg tool_id, self, context)
        end
  end.

Definition empty_results : BatchResults :=
  {| tools_executed := []; tool_results := ∅; success := true; total_time := 0%Q |}.

(** [results["tools_executed"].append(tool_id);
     results["tool_results"][tool_id] = result] *)
Definition record_result (results : BatchResults) (tool_id : string)
    (result : Dict) : BatchResults :=
  {| tools_executed := (tools_executed results ++ [tool_id])%list;
     tool_results := <[tool_id := result]> (tool_results results);
     success := success results; total_time := total_time results |}.

Definition set_success_false (results : BatchResults) : BatchResults :=
  {| tools_executed := tools_executed results;
     tool_results := tool_results results;
     success := false; total_time := total_time results |}.

Definition set_total_time (results : BatchResults) (t : Q) : BatchResults :=
  {| tools_executed := tools_executed results;
     tool_results := tool_results results;
     success := success results; total_time := t |}.

(** The context key [f"{tool_id}_result"]. *)
Definition result_key (tool_id : string) : string := tool_id ++ "_result".

(** The sequential branch: the loop over [tool_ids], on one context
    object. [clock i] holds the clock readings of the [i]-th call. *)
Fixpoint sequential_loop (tool_ids : list string) (clock : nat -> Clock)
    (self : ToolMapManager) (context : Dict) (results : BatchResults)
    : BatchResults * ToolMapManager * Dict :=
  match tool_ids with
  | [] => (results, self, context)
  | tool_id :: rest =>
      let '(result, self, context) := execute_tool self tool_id context (clock O) in
      let results := record_result results tool_id result in
      if dict_get_truthy result "success"
      then sequential_loop rest (fun i => clock (S i)) self
             (<[result_key tool_id := VDict result]> context) results
      else sequential_loop rest (fun i => clock (S i)) self context
             (set_success_false results)
  end.

(** The parallel branch, first half: every call gets [context.copy()],
    a copy of the context as it is when the batch starts; the calls run
    one after the other in list order, none of them suspending. *)
Fixpoint gather_calls (tool_ids : list string) (clock : nat -> Clock)
    (self : ToolMapManager) (context : Dict)
    : list GatherItem * ToolMapManager :=
  match tool_ids with
  | [] => ([], self)
  | tool_id :: rest =>
      let '(result, self, _) := execute_tool self tool_id context (clock O) in
      let '(items, self) := gather_calls rest (fun i => clock (S i)) self context in
      (GResult result :: items, self)
  end.

(** The parallel branch, second half: the loop over
    [zip(tool_ids, tool_results)]. *)
Fixpoint collect_gathered (pairs : list (string * GatherItem))
    (results : BatchResults) : BatchResults :=
  match pairs with
  | [] => results
  | (tool_id, item) :: rest =>
      match item with
      | GException msg =>
          collect_gathered rest
            (record_result (set_success_false results) tool_id
               (failure_result msg tool_id))
      | GResult result =>
          collect_gathered rest (record_result results tool_id result)
      end
  end.

(** [execute_multiple_tools(tool_ids, context, sequential)]; [elapsed] is
    the wall-clock time the batch took. *)
Definition execute_multiple_tools (self : ToolMapManager)
    (tool_ids : list string) (context : Dict) (sequential : bool)
    (clock : nat -> Clock) (elapsed : Q)
    : BatchResults * ToolMapManager * Dict :=
  if sequential
  then
    let '(results, self, context) :=
      sequential_loop tool_ids clock self context empty_results in
    (set_total_time results elapsed, self, context)
  else
    let '(items, self) := gather_calls tool_ids clock self context in
    let results := collect_gathered (zip tool_ids items) empty_results in
    (set_total_time results elapsed, self, context).



End Execution.

(** ** What the tools do to the context *)





(** The context object the sequential loop carries on with after the call
    [execute_tool(tool_id, context)] came back with [r]. *)
Definition next_context (tool_id : string) (r : Dict * ToolMapManager * Dict)
    : Dict :=
  if dict_get_truthy r.1.1 "success"
  then <[result_key tool_id := VDict r.1.1]> r.2
  else r.2.

(** The results map after the loop body ran for [tool_id]. *)
Definition next_results (tool_id : string) (result : Dict)
    (results : BatchResults) : BatchResults :=
  if dict_get_truthy result "success"
  then record_result results tool_id result
  else set_success_false (record_result results tool_id result).


(** The gathered item is a return value, not an exception object. *)
Definition is_result (item : GatherItem) : bool :=
  match item with
  | GResult _ => true
  | GException _ => false
  end.


(** ** Sequences of registry calls *)

Record AddArgs : Type := {
  arg_tool_id : string;
  arg_tool_instance : ToolInstance;
  arg_name : string;
  arg_description : string;
  arg_handler_name : string;
  arg_llm_config : option Dict;
  arg_system_prompt : string;
  arg_capabilities : option (list string);
  arg_keywords : option (list string);
  arg_metadata : option Dict
}.

Definition add_tool_with (self : ToolMapManager) (a : AddArgs) (now : datetime)
    : Outcome bool * ToolMapManager :=
  add_tool self (arg_tool_id a) (arg_tool_instance a) (arg_name a)
    (arg_description a) (arg_handler_name a) (arg_llm_config a)
    (arg_system_prompt a) (arg_capabilities a) (arg_keywords a)
    (arg_metadata a) now.

(** What happens to a registry between its creation and an observation:
    calls of its methods by the host, and the scheduler running a pending
    background initialization. *)
Inductive RegistryEvent : Type :=
| CallAddTool (a : AddArgs) (now : datetime)
| CallRemoveTool (tool_id : string)
| CallCleanup
| RunBackgroundInit (tool_id : string) (now : datetime).

Definition apply_event (self : ToolMapManager) (ev : RegistryEvent)
    : ToolMapManager :=
  match ev with
  | CallAddTool a now => snd (add_tool_with self a now)
  | CallRemoveTool tool_id => snd (remove_tool self tool_id)
  | CallCleanup => cleanup self
  | RunBackgroundInit tool_id now => background_init self tool_id now
  end.

Definition run_events (self : ToolMapManager) (evs : list RegistryEvent)
    : ToolMapManager :=
  foldl apply_event self evs.

(** The invariant linking the size of the map to the two counters. *)
Definition counters_consistent (self : ToolMapManager) : Prop :=
  count self = total_added self - total_removed self.

(** The three ways [add_tool] ends. *)
Inductive AddToolSpec (self : ToolMapManager) (tid : string)
    (inst : ToolInstance) (nm : string) (caps kws : option (list string))
    : Outcome bool * ToolMapManager -> Prop :=
| AddRejected :
    (count self >= max_tools self)%Z \/ is_Some (_tool_map self !! tid) ->
    AddToolSpec self tid inst nm caps kws (Ret false, self)
| AddRaised kind msg :
    (count self < max_tools self)%Z -> _tool_map self !! tid = None ->
    tid = "" ->
    AddToolSpec self tid inst nm caps kws (Exc kind msg, self)
| AddAccepted entry self' :
    (count self < max_tools self)%Z -> _tool_map self !! tid = None ->
    tid <> "" ->
    _tool_map self' = <[tid := entry]> (_tool_map self) ->
    tool_id entry = tid -> tool_instance entry = inst ->
    name entry = str_or nm tid ->
    capabilities entry = list_or_empty caps ->
    keywords entry = list_or_empty kws ->
    max_history_size entry = 50 ->
    execution_history entry = [] ->
    status entry = match tool_initialize inst with
                   | Some _ => UNINITIALIZED
                   | None => READY
                   end ->
    total_added self' = total_added self + 1 ->
    total_removed self' = total_removed self ->
    total_executions self' = total_executions self ->
    max_tools self' = max_tools self ->
    AddToolSpec self tid inst nm caps kws (Ret true, self').

(** ** The rest of the entry and of the registry *)

(** [get_recent_executions(n)] *)
Definition get_recent_executions (e : ToolEntryDTO) (n : Z) : list Dict :=
  match execution_history e with
  | [] => []
  | _ => slice_from_neg (execution_history e) n
  end.

(** [get_all_tools()]: a copy of the map. *)
Definition get_all_tools (self : ToolMapManager) : gmap string ToolEntryDTO :=
  _tool_map self.

(** [get_tools_by_status(status)] *)
Definition get_tools_by_status (self : ToolMapManager) (s : ToolStatusENUM)
    : gmap string ToolEntryDTO :=
  filter (fun p => status_eqb (status p.2) s = true) (_tool_map self).

(** [get_ready_tools()] *)
Definition get_ready_tools (self : ToolMapManager) : gmap string ToolEntryDTO :=
  filter (fun p => status_eqb (status p.2) READY = true) (_tool_map self).

(** [get_tools_by_capability(capability)] *)
Definition get_tools_by_capability (self : ToolMapManager) (capability : string)
    : gmap string ToolEntryDTO :=
  filter (fun p => capability ∈ capabilities p.2) (_tool_map self).

(** [count_ready()] *)
Definition count_ready (self : ToolMapManager) : Z :=
  Z.of_nat (size (get_ready_tools self)).

(** A match [(tool_id, entry, score)] of [find_matching_tools]. *)
Record Match : Type := {
  match_id : string;
  match_entry : ToolEntryDTO;
  match_score : Q
}.

(** [matches.sort(key=lambda x: x[2], reverse=True)]: a stable sort by
    descending score, as an insertion sort that puts an element before the
    elements of equal score that came after it. *)
Fixpoint insert_match (x : Match) (l : list Match) : list Match :=
  match l with
  | [] => [x]
  | y :: l' =>
      if Qlt_le_dec (match_score x) (match_score y)
      then y :: insert_match x l'
      else x :: y :: l'
  end.

Definition sort_matches (l : list Match) : list Match :=
  foldr insert_match [] l.

(** The loop of [find_matching_tools] over [items], the sequence
    [self._tool_map.items()]. *)
Fixpoint collect_matches (items : list (string * ToolEntryDTO)) (query : string)
    (threshold : Q) : list Match :=
  match items with
  | [] => []
  | (tid, entry) :: rest =>
      if negb (is_available entry)
      then collect_matches rest query threshold
      else
        let score := matches_query entry query in
        if Qle_bool threshold score
        then {| match_id := tid; match_entry := entry; match_score := score |}
             :: collect_matches rest query threshold
        else collect_matches rest query threshold
  end.

Definition find_matching_in (items : list (string * ToolEntryDTO))
    (query : string) (threshold : Q) : list Match :=
  sort_matches (collect_matches items query threshold).

(** [find_matching_tools(query, threshold)]. The source walks the map in
    insertion order, which the finite map does not record; the walk here
    is over [map_to_list], so the order among matches of equal score may
    differ from the source's. *)
Definition find_matching_tools (self : ToolMapManager) (query : string)
    (threshold : Q) : list Match :=
  find_matching_in (map_to_list (_tool_map self)) query threshold.

(** [sum(f(e) for e in self._tool_map.values())] *)
Definition sum_Q (f : ToolEntryDTO -> Q) (self : ToolMapManager) : Q :=
  foldr (fun p acc => (f p.2 + acc)%Q) 0%Q (map_to_list (_tool_map self)).

Definition sum_Z (f : ToolEntryDTO -> Z) (self : ToolMapManager) : Z :=
  foldr (fun p acc => f p.2 + acc) 0 (map_to_list (_tool_map self)).

(** The map [get_statistics()] returns. *)
Record Statistics : Type := {
  stat_session_id : string;
  stat_created_at : string;
  stat_total_tools : Z;
  stat_ready_tools : Z;
  stat_uninitialized_tools : Z;
  stat_error_tools : Z;
  stat_total_added : Z;
  stat_total_removed : Z;
  stat_total_executions : Z;
  stat_average_execution_time : Q;
  stat_max_tools : Z;
  stat_capacity_used : Q
}.

(** [get_statistics()] *)
Definition get_statistics (self : ToolMapManager) : Statistics :=
  let ready_count := count_ready self in
  let total_count := count self in
  let total_exec_time := sum_Q total_execution_time self in
  let total_exec_count := sum_Z execution_count self in
  let avg_exec_time :=
    if (0 <? total_exec_count)%Z
    then (total_exec_time / inject_Z total_exec_count)%Q
    else 0%Q in
  {| stat_session_id := session_id self;
     stat_created_at := isoformat (created_at self);
     stat_total_tools := total_count;
     stat_ready_tools := ready_count;
     stat_uninitialized_tools :=
       Z.of_nat (size (get_tools_by_status self UNINITIALIZED));
     stat_error_tools := Z.of_nat (size (get_tools_by_status self ERROR));
     stat_total_added := total_added self;
     stat_total_removed := total_removed self;
     stat_total_executions := total_executions self;
     stat_average_execution_time := avg_exec_time;
     stat_max_tools := max_tools self;
     stat_capacity_used :=
       if (0 <? max_tools self)%Z
       then (inject_Z total_count / inject_Z (max_tools self) * 100)%Q
       else 0%Q |}.

(** ** Sessions *)

(** What a registry goes through in a session: the calls of
    [RegistryEvent], and executions of one tool or of a batch. *)
Inductive SessionEvent : Type :=
| Registry (ev : RegistryEvent)
| CallExecuteTool (tool_id : string) (context : Dict) (clk : Clock)
| CallExecuteMultiple (tool_ids : list string) (context : Dict)
    (sequential : bool) (clock : nat -> Clock) (elapsed : Q).

Definition apply_session_event (py_str : Dict -> string)
    (self : ToolMapManager) (ev : SessionEvent) : ToolMapManager :=
  match ev with
  | Registry ev => apply_event self ev
  | CallExecuteTool tool_id context clk =>
      (execute_tool py_str self tool_id context clk).1.2
  | CallExecuteMultiple tool_ids context sequential clock elapsed =>
      (execute_multiple_tools py_str self tool_ids context sequential clock
         elapsed).1.2
  end.

Definition run_session (py_str : Dict -> string) (self : ToolMapManager)
    (evs : list SessionEvent) : ToolMapManager :=
  foldl (apply_session_event py_str) self evs.

(** What holds of an entry the registry keeps under [tid]. *)
Record entry_ok (tid : string) (e : ToolEntryDTO) : Prop := {
  ok_tool_id : tool_id e = tid;
  ok_id_nonempty : tid <> "";
  ok_name_nonempty : name e <> "";
  ok_category : category e = "tool";
  ok_cap : max_history_size e = 50;
  ok_history : (length (execution_history e) <= 50)%nat;
  ok_not_executing : status e <> EXECUTING;
  ok_execution_count : 0 <= execution_count e;
  ok_error_count : 0 <= error_count e;
  ok_fresh_stats :
    execution_count e = 0 ->
    total_execution_time e = 0%Q /\ average_execution_time e = 0%Q /\
    last_executed e = None;
  ok_average :
    0 < execution_count e ->
    average_execution_time e
    = (total_execution_time e / inject_Z (execution_count e))%Q;
  ok_errors : error_count e = 0 -> last_error e = None
}.

(** What holds of a registry between two calls. *)
Record registry_ok (self : ToolMapManager) : Prop := {
  ok_entries : forall tid e, _tool_map self !! tid = Some e -> entry_ok tid e;
  ok_handles :
    forall tid, is_Some (_initialization_tasks self !! tid) ->
                is_Some (_tool_map self !! tid);
  ok_capacity : count self <= Z.max 0 (max_tools self);
  ok_counters : counters_consistent self;
  ok_total_added : 0 <= total_removed self <= total_added self;
  ok_total_executions : 0 <= total_executions self
}.

(** Registry [b] differs from registry [a] at most in the entry and the
    handle of [tid] and in [total_executions]: the other entries and
    handles, the ids registered, the counters of additions and removals
    and the settings are the same. *)
Record same_outside (tid : string) (a b : ToolMapManager) : Prop := {
  same_entries : forall t, t <> tid -> _tool_map b !! t = _tool_map a !! t;
  same_handles :
    forall t, t <> tid ->
              _initialization_tasks b !! t = _initialization_tasks a !! t;
  same_registered :
    is_Some (_tool_map b !! tid) <-> is_Some (_tool_map a !! tid);
  same_count : count b = count a;
  same_total_added : total_added b = total_added a;
  same_total_removed : total_removed b = total_removed a;
  same_max_tools : max_tools b = max_tools a;
  same_session_id : session_id b = session_id a;
  same_created_at : created_at b = created_at a
}.

(** The character [\n]. *)
Definition newline : string := String "010"%char EmptyString.

(** Descending order of scores. *)
Definition score_ge (a b : Match) : Prop := (match_score b <= match_score a)%Q.

(** The matches of score [q], in the order they have in [l]. *)
Definition of_score (q : Q) (l : list Match) : list Match :=
  List.filter (fun m => Qeq_bool (match_score m) q) l.

(** Reduces the projections of a registry that was rebuilt field by field. *)
Ltac reg_simpl :=
  cbn [_tool_map _initialization_tasks total_added total_removed
       total_executions max_tools session_id created_at with_tool_map
       with_tasks incr_total_added incr_total_removed incr_total_executions
       update_entry fst snd] in *.

(** ** Sample tools and entries *)

Definition epoch : datetime := {| isoformat := "2024-01-01T00:00:00" |}.

Definition later : datetime := {| isoformat := "2024-01-01T00:00:05" |}.

Definition stub_result : Dict :=
  <["success" := VBool true]> (<["value" := VInt 42]> ∅).

(** A tool without [initialize] whose [execute] returns
    [{"success": True, "value": 42}] after half a second. *)
Definition stub_tool : ToolInstance :=
  {| tool_initialize := None;
     tool_execute := fun context => Returns stub_result context 0.5 |}.

(** A tool whose [execute] raises an exception with text [msg]. *)
Definition raising_tool (msg : string) : ToolInstance :=
  {| tool_initialize := None;
     tool_execute := fun context => Raises msg context |}.

(** An entry as the dataclass builds it, with the given status and cap. *)
Definition sample_entry (tool_id : string) (inst : ToolInstance)
    (name description : string) (capabilities keywords : list string)
    (status : ToolStatusENUM) (max_history_size : Z) : ToolEntryDTO :=
  {| tool_id := tool_id; tool_instance := inst; name := name;
     description := description; category := "tool";
     handler_name := ""; llm_config := ∅;
     system_prompt := ""; capabilities := capabilities;
     keywords := keywords; status := status;
     initialized_at := None; last_executed := None;
     execution_count := 0;
     total_execution_time := 0%Q;
     average_execution_time := 0%Q;
     execution_history := [];
     max_history_size := max_history_size; error_count := 0;
     last_error := None; last_error_time := None;
     metadata := ∅ |}.

Definition cost_entry : ToolEntryDTO :=
  sample_entry "cost_estimator" stub_tool "Cost Estimator"
    "Estimates project costs" ["pricing"] ["cost"; "estimate"] READY 50.

(** An entry built directly, with an empty name and an empty keyword. *)
Definition nameless_entry : ToolEntryDTO :=
  sample_entry "t1" stub_tool "" "" [] [""] READY 50.

Definition cost_args : AddArgs :=
  {| arg_tool_id := "cost_estimator"; arg_tool_instance := stub_tool;
     arg_name := ""; arg_description := "Estimates project costs";
     arg_handler_name := ""; arg_llm_config := None;
     arg_system_prompt := ""; arg_capabilities := None;
     arg_keywords := Some ["cost"; "estimate"]; arg_metadata := None |}.

(** A registry of capacity 2 holding the cost estimator. *)
Definition cost_registry : ToolMapManager :=
  snd (add_tool_with (new_manager "session-1" 2 epoch) cost_args epoch).

(** The records a history is asked to take, with the clock reading at each
    request, added one after the other. *)
Definition add_all_to_execution_history (e : ToolEntryDTO)
    (entries : list (Dict * datetime)) : ToolEntryDTO :=
  foldl (fun e r => add_to_execution_history e (fst r) (snd r)) e entries.

(** The last [m] elements of a list. *)
Definition most_recent {A : Type} (m : nat) (l : list A) : list A :=
  drop (length l - m) l.

(** An entry built with [max_history_size=0]. *)
Definition uncapped_entry : ToolEntryDTO :=
  sample_entry "t0" stub_tool "Zero" "" [] [] READY 0.


(** A registry holding the cost estimator and a tool that raises. *)
Definition mixed_registry : ToolMapManager :=
  snd (add_tool cost_registry "broken" (raising_tool "boom")
         "Broken" "" "" None "" None None None epoch).

Definition fixed_clock : Clock :=
  {| now_init := epoch; now_stats := later; now_history := later;
     now_error := later |}.

Definition query_context : Dict := <["query" := VStr "estimate my cost"]> ∅.

(** The entry [cost_registry] holds for the cost estimator. *)
Definition cost_registered_entry : ToolEntryDTO :=
  default cost_entry (_tool_map cost_registry !! "cost_estimator").



(** No rendering of result maps is needed to run the samples. *)
Definition no_str : Dict -> string := fun _ => "".



(** A tool with an [initialize] method that succeeds. *)
Definition slow_tool : ToolInstance :=
  {| tool_initialize := Some (InitReturns true);
     tool_execute := fun context => Returns stub_result context 0.25 |}.

(** A tool whose [initialize] returns [False]. *)
Definition refusing_tool : ToolInstance :=
  {| tool_initialize := Some (InitReturns false);
     tool_execute := fun context => Returns stub_result context 0.25 |}.

(** A tool whose [initialize] raises. *)
Definition crashing_tool : ToolInstance :=
  {| tool_initialize := Some (InitRaises "no engine");
     tool_execute := fun context => Returns stub_result context 0.25 |}.

Definition slow_args : AddArgs :=
  {| arg_tool_id := "slow"; arg_tool_instance := slow_tool;
     arg_name := "Slow"; arg_description := "";
     arg_handler_name := ""; arg_llm_config := None;
     arg_system_prompt := ""; arg_capabilities := Some ["pricing"];
     arg_keywords := None; arg_metadata := None |}.

(** A session: two tools are added, the estimator is executed, a batch
    runs over both. *)
Definition sample_session : list SessionEvent :=
  [Registry (CallAddTool cost_args epoch);
   Registry (CallAddTool slow_args epoch);
   CallExecuteTool "cost_estimator" query_context fixed_clock;
   CallExecuteTool "missing" query_context fixed_clock].

Definition session_registry : ToolMapManager :=
  run_session no_str (new_manager "session-1" 2 epoch) sample_session.

Definition session_entry : ToolEntryDTO :=
  default cost_entry (_tool_map session_registry !! "cost_estimator").

(** A registry holding three tools whose initialization is still pending:
    one that will succeed, one that will return [False], one that will
    raise. *)
Definition lazy_registry : ToolMapManager :=
  let r0 := new_manager "session-3" 20 epoch in
  let r1 := (add_tool r0 "slow" slow_tool "" "" "" None "" None None None epoch).2 in
  let r2 := (add_tool r1 "refusing" refusing_tool "" "" "" None "" None None None
               epoch).2 in
  (add_tool r2 "crashing" crashing_tool "" "" "" None "" None None None epoch).2.

Definition lazy_entry (tid : string) : ToolEntryDTO :=
  default cost_entry (_tool_map lazy_registry !! tid).

(** * Properties *)

(** ** The definitions on small inputs *)

Example lower_mixed : Str.lower "Estimate My COST-2" = "estimate my cost-2".
Proof. reflexivity. Qed.

Example split_runs :
  Str.split (String "009"%char "  estimates  project" ++ String "010"%char "costs ")
  = ["estimates"; "project"; "costs"].
Proof. reflexivity. Qed.

Example split_blank : Str.split "   " = [].
Proof. reflexivity. Qed.

Example str_in_inside : Str.str_in "cost" "estimate my cost" = true.
Proof. reflexivity. Qed.

Example str_in_absent : Str.str_in "costs" "estimate my cost" = false.
Proof. reflexivity. Qed.

Example slice_last_two : slice_from_neg [1; 2; 3; 4; 5] 2 = [4; 5].
Proof. reflexivity. Qed.

Example slice_longer_than_list : slice_from_neg [1; 2; 3] 7 = [1; 2; 3].
Proof. reflexivity. Qed.

Example slice_minus_zero : slice_from_neg [1; 2; 3] 0 = [1; 2; 3].
Proof. reflexivity. Qed.

Example score_two_keywords :
  (matches_query cost_entry "estimate my cost" == 0.8)%Q.
Proof. reflexivity. Qed.

Example score_capped :
  matches_query
    (sample_entry "t" stub_tool "cost" "cost tool" ["cost"; "co"] ["cost"; "os"]
       READY 50) "cost" = 1%Q.
Proof. reflexivity. Qed.

Example cost_estimator_ready_at_once :
  status <$> _tool_map cost_registry !! "cost_estimator" = Some READY.
Proof. reflexivity. Qed.

Example cost_estimator_executes :
  (execute_tool no_str cost_registry "cost_estimator" query_context fixed_clock).1.1
  = stub_result.
Proof. reflexivity. Qed.

(** ** Strings *)

Module StrFacts.
Import Str.




Lemma str_in_unfold (a b : string) :
  str_in a b =
  (starts_with a b ||
   match b with EmptyString => false | String _ h => str_in a h end)%bool.
Proof. destruct b; reflexivity. Qed.




Lemma str_in_empty (b : string) : str_in EmptyString b = true.
Proof. destruct b; reflexivity. Qed.



End StrFacts.

(** ** Scoring *)

Section Scoring.
Local Open Scope Q_scope.

Variable query_lower : string.

Lemma keyword_score_cons kw kws score :
  keyword_score (kw :: kws) query_lower score =
  keyword_score kws query_lower
    (if Str.str_in (Str.lower kw) query_lower then score + 0.4 else score).
Proof. reflexivity. Qed.

Lemma capability_score_cons cap caps score :
  capability_score (cap :: caps) query_lower score =
  capability_score caps query_lower
    (if Str.str_in (Str.lower cap) query_lower then score + 0.3 else score).
Proof. reflexivity. Qed.

Lemma keyword_score_mono kws score :
  score <= keyword_score kws query_lower score.
Proof.
  revert score. induction kws as [|kw kws IH]; intros score.
  - apply Qle_refl.
  - rewrite keyword_score_cons.
    eapply Qle_trans; [|apply IH].
    destruct (Str.str_in _ _); lra.
Qed.

Lemma capability_score_mono caps score :
  score <= capability_score caps query_lower score.
Proof.
  revert score. induction caps as [|cap caps IH]; intros score.
  - apply Qle_refl.
  - rewrite capability_score_cons.
    eapply Qle_trans; [|apply IH].
    destruct (Str.str_in _ _); lra.
Qed.

Lemma keyword_score_hit kws kw score :
  kw ∈ kws -> Str.str_in (Str.lower kw) query_lower = true ->
  score + 0.4 <= keyword_score kws query_lower score.
Proof.
  revert score. induction kws as [|k kws IH]; intros score Hin Hhit.
  - inversion Hin.
  - rewrite keyword_score_cons. apply elem_of_cons in Hin as [->|Hin].
    + rewrite Hhit. apply keyword_score_mono.
    + eapply Qle_trans; [|apply (IH _ Hin Hhit)].
      destruct (Str.str_in (Str.lower k) query_lower); lra.
Qed.



(** The accumulated keyword score is the start value plus what the
    keywords add. *)
Lemma keyword_score_shift kws score :
  keyword_score kws query_lower score == score + keyword_score kws query_lower 0.
Proof.
  revert score. induction kws as [|k kws IH]; intros score.
  - simpl. lra.
  - rewrite !keyword_score_cons. destruct (Str.str_in _ _).
    + rewrite (IH (score + 0.4)), (IH (0 + 0.4)). lra.
    + apply IH.
Qed.

Lemma keyword_score_app kws1 kws2 score :
  keyword_score (kws1 ++ kws2) query_lower score =
  keyword_score kws2 query_lower (keyword_score kws1 query_lower score).
Proof. unfold keyword_score. apply fold_left_app. Qed.

End Scoring.

Lemma py_min_le_l (a b : Q) : (py_min a b <= a)%Q.
Proof. unfold py_min. destruct (Qlt_le_dec b a); lra. Qed.


Lemma py_min_glb (a b c : Q) : (c <= a -> c <= b -> c <= py_min a b)%Q.
Proof. unfold py_min. destruct (Qlt_le_dec b a); lra. Qed.

Lemma raw_score_keywords_le (e : ToolEntryDTO) (query : string) :
  (keyword_score (keywords e) (Str.lower query) 0 <= raw_score e query)%Q.
Proof.
  unfold raw_score.
  pose proof (capability_score_mono (Str.lower query) (capabilities e)
                (keyword_score (keywords e) (Str.lower query) 0)) as Hc.
  destruct (Str.str_in (Str.lower (name e)) _), (existsb _ _); lra.
Qed.



Lemma keyword_hit_scores (e : ToolEntryDTO) (query kw : string) :
  kw ∈ keywords e ->
  Str.str_in (Str.lower kw) (Str.lower query) = true ->
  (0.4 <= matches_query e query)%Q.
Proof.
  intros Hin Hhit. unfold matches_query. apply py_min_glb; [|lra].
  eapply Qle_trans; [|apply raw_score_keywords_le].
  pose proof (keyword_score_hit (Str.lower query) _ kw 0%Q Hin Hhit). lra.
Qed.



(** ** Registration *)

Lemma str_or_nonempty (s d : string) : d <> "" -> str_or s d <> "".
Proof.
  intros Hd. unfold str_or. destruct (String.eqb s "") eqn:E; [exact Hd|].
  now apply String.eqb_neq in E.
Qed.

Lemma size_alter (f : ToolEntryDTO -> ToolEntryDTO) (i : string)
    (m : gmap string ToolEntryDTO) : size (alter f i m) = size m.
Proof. rewrite <- !size_dom, dom_alter_L. reflexivity. Qed.

Lemma add_tool_spec self tid inst nm desc hn llm sp caps kws md now :
  AddToolSpec self tid inst nm caps kws
    (add_tool self tid inst nm desc hn llm sp caps kws md now).
Proof.
  unfold add_tool.
  destruct (count self >=? max_tools self)%Z eqn:Hcap.
  { apply AddRejected. left. apply Z.geb_le in Hcap. lia. }
  assert (count self < max_tools self)%Z as Hlt.
  { destruct (Z.geb_spec (count self) (max_tools self)); [discriminate | lia]. }
  destruct (decide (is_Some (_tool_map self !! tid))) as [Hdup|Hfresh].
  { apply AddRejected. now right. }
  apply eq_None_not_Some in Hfresh.
  unfold new_entry. destruct (String.eqb tid "") eqn:Hid.
  { apply String.eqb_eq in Hid. now apply AddRaised. }
  apply String.eqb_neq in Hid.
  destruct (tool_initialize inst) eqn:Hinit.
  - eapply AddAccepted; try reflexivity; try assumption.
    now rewrite Hinit.
  - eapply AddAccepted; try reflexivity; try assumption.
    + simpl. apply alter_insert_eq.
    + reflexivity.
    + reflexivity.
    + reflexivity.
    + reflexivity.
    + reflexivity.
    + reflexivity.
    + reflexivity.
    + now rewrite Hinit.
Qed.

(** C10. An entry whose [name] is the empty string scores at least 0.2 on
    every query; an empty string among the keywords adds 0.4 to the
    accumulated keyword score of every query, so such an entry scores at
    least 0.4; an entry that [add_tool] registers never has an empty name,
    since the name defaults to the tool id and an empty tool id is refused
    by the entry's constructor. *)
Theorem empty_name_and_keyword_always_match :
  (forall e query, name e = "" -> (0.2 <= matches_query e query)%Q) /\
  (forall kws1 kws2 query_lower score,
     (keyword_score (kws1 ++ "" :: kws2) query_lower score ==
      keyword_score (kws1 ++ kws2) query_lower score + 0.4)%Q) /\
  (forall e query, "" ∈ keywords e -> (0.4 <= matches_query e query)%Q) /\
  (forall self tid inst nm desc hn llm sp caps kws md now self',
     add_tool self tid inst nm desc hn llm sp caps kws md now = (Ret true, self') ->
     exists entry, _tool_map self' !! tid = Some entry /\
                   name entry = (if String.eqb nm "" then tid else nm) /\
                   name entry <> "").
Proof.
  repeat split.
  - intros e query Hname. unfold matches_query. apply py_min_glb; [|lra].
    unfold raw_score. rewrite Hname. simpl Str.lower at 1.
    rewrite StrFacts.str_in_empty.
    pose proof (keyword_score_mono (Str.lower query) (keywords e) 0%Q) as Hk.
    pose proof (capability_score_mono (Str.lower query) (capabilities e)
                  (keyword_score (keywords e) (Str.lower query) 0)) as Hc.
    destruct (existsb _ _); lra.
  - intros kws1 kws2 query_lower score.
    rewrite !keyword_score_app, keyword_score_cons.
    simpl Str.lower. rewrite StrFacts.str_in_empty.
    rewrite keyword_score_shift.
    rewrite (keyword_score_shift _ kws2 (keyword_score kws1 query_lower score)).
    lra.
  - intros e query Hin.
    apply (keyword_hit_scores e query "" Hin). apply StrFacts.str_in_empty.
  - intros self tid inst nm desc hn llm sp caps kws md now self' Hadd.
    pose proof (add_tool_spec self tid inst nm desc hn llm sp caps kws md now) as Hspec.
    rewrite Hadd in Hspec. inversion Hspec; subst.
    exists entry. split; [|split].
    + match goal with H : _tool_map self' = _ |- _ => rewrite H end.
      apply lookup_insert_eq.
    + match goal with H : name entry = _ |- _ => rewrite H end. reflexivity.
    + match goal with H : name entry = _ |- _ => rewrite H end.
      now apply str_or_nonempty.
Qed.

Lemma empty_name_and_keyword_always_match_witness :
  (0.2 <= matches_query nameless_entry "any query at all")%Q /\
  (0.4 <= matches_query nameless_entry "any query at all")%Q /\
  exists entry, _tool_map cost_registry !! "cost_estimator" = Some entry /\
                name entry = "cost_estimator" /\ name entry <> "".
Proof.
  destruct empty_name_and_keyword_always_match as (Hname & _ & Hkw & Hadd).
  split; [|split].
  - apply Hname. reflexivity.
  - apply Hkw. apply list_elem_of_here.
  - apply (Hadd (new_manager "session-1" 2 epoch) "cost_estimator" stub_tool ""
             "Estimates project costs" "" None "" None
             (Some ["cost"; "estimate"]) None epoch cost_registry).
    reflexivity.
Defined.

(** C3. [add_tool] answers [False] and hands the registry back as it was
    (same map, same entries, same counters) when the map holds [max_tools]
    entries or more, and when the id is already registered; in particular a
    second [add_tool] of an id that was just registered is refused and
    leaves the registry, with the first entry, as it was. *)
Theorem add_tool_rejects_full_or_duplicate :
  (forall self tid inst nm desc hn llm sp caps kws md now,
     (count self >= max_tools self)%Z \/ is_Some (_tool_map self !! tid) ->
     add_tool self tid inst nm desc hn llm sp caps kws md now = (Ret false, self)) /\
  (forall self tid inst nm desc hn llm sp caps kws md now self'
          inst2 nm2 desc2 hn2 llm2 sp2 caps2 kws2 md2 now2,
     add_tool self tid inst nm desc hn llm sp caps kws md now = (Ret true, self') ->
     add_tool self' tid inst2 nm2 desc2 hn2 llm2 sp2 caps2 kws2 md2 now2
     = (Ret false, self')).
Proof.
  assert (forall self tid inst nm desc hn llm sp caps kws md now,
     (count self >= max_tools self)%Z \/ is_Some (_tool_map self !! tid) ->
     add_tool self tid inst nm desc hn llm sp caps kws md now = (Ret false, self))
    as Hreject.
  { intros self tid inst nm desc hn llm sp caps kws md now Hcase.
    unfold add_tool.
    destruct (Z.geb_spec (count self) (max_tools self)) as [Hge|Hlt]; [reflexivity|].
    destruct Hcase as [Hfull|Hdup]; [lia|].
    destruct (decide (is_Some (_tool_map self !! tid))); [reflexivity|contradiction]. }
  split; [exact Hreject|].
  intros self tid inst nm desc hn llm sp caps kws md now self'
         inst2 nm2 desc2 hn2 llm2 sp2 caps2 kws2 md2 now2 Hadd.
  apply Hreject. right.
  pose proof (add_tool_spec self tid inst nm desc hn llm sp caps kws md now) as Hspec.
  rewrite Hadd in Hspec. inversion Hspec; subst.
  match goal with H : _tool_map self' = _ |- _ => rewrite H end.
  rewrite lookup_insert_eq. eauto.
Qed.

Lemma add_tool_rejects_full_or_duplicate_witness :
  add_tool cost_registry "cost_estimator" (raising_tool "boom") "Other" "" ""
    None "" None None None later = (Ret false, cost_registry) /\
  add_tool (new_manager "session-0" 0 epoch) "cost_estimator" stub_tool "" "" ""
    None "" None None None later = (Ret false, new_manager "session-0" 0 epoch).
Proof.
  destruct add_tool_rejects_full_or_duplicate as (Hreject & Htwice).
  split.
  - apply (Htwice (new_manager "session-1" 2 epoch) "cost_estimator" stub_tool ""
             "Estimates project costs" "" None "" None
             (Some ["cost"; "estimate"]) None epoch).
    reflexivity.
  - apply Hreject. left. vm_compute. discriminate.
Defined.

(** ** The counters *)

Lemma counters_consistent_new sid mx now :
  counters_consistent (new_manager sid mx now).
Proof. reflexivity. Qed.

Lemma add_tool_counts self tid inst nm desc hn llm sp caps kws md now :
  match add_tool self tid inst nm desc hn llm sp caps kws md now with
  | (Ret true, self') =>
      _tool_map self !! tid = None /\
      (exists entry, _tool_map self' = <[tid := entry]> (_tool_map self)) /\
      count self' = count self + 1 /\
      total_added self' = total_added self + 1 /\
      total_removed self' = total_removed self
  | (_, self') => self' = self
  end.
Proof.
  destruct (add_tool_spec self tid inst nm desc hn llm sp caps kws md now)
    as [?|????|entry self' Hlt Hfresh Hid Hmap]; try reflexivity.
  repeat split; try assumption; [eauto|].
  unfold count. rewrite Hmap, map_size_insert_None by assumption. lia.
Qed.

Lemma remove_tool_counts self tid :
  match remove_tool self tid with
  | (true, self') =>
      is_Some (_tool_map self !! tid) /\
      _tool_map self' = delete tid (_tool_map self) /\
      count self' = count self - 1 /\
      total_removed self' = total_removed self + 1 /\
      total_added self' = total_added self
  | (false, self') => _tool_map self !! tid = None /\ self' = self
  end.
Proof.
  unfold remove_tool. destruct (_tool_map self !! tid) as [entry|] eqn:Hget.
  - repeat split; [eauto|]. unfold count. simpl.
    rewrite map_size_delete_Some by eauto.
    assert (size (_tool_map self) <> 0)%nat.
    { intros Hz. apply map_size_empty_inv in Hz. rewrite Hz in Hget.
      now rewrite lookup_empty in Hget. }
    lia.
  - split; reflexivity.
Qed.

Lemma add_tool_consistent self a now :
  counters_consistent self -> counters_consistent (snd (add_tool_with self a now)).
Proof.
  unfold counters_consistent, add_tool_with. intros Hinv.
  pose proof (add_tool_counts self (arg_tool_id a) (arg_tool_instance a)
                (arg_name a) (arg_description a) (arg_handler_name a)
                (arg_llm_config a) (arg_system_prompt a) (arg_capabilities a)
                (arg_keywords a) (arg_metadata a) now) as H.
  destruct (add_tool _ _ _ _ _ _ _ _ _ _ _ _) as [[[]|] self']; simpl.
  - destruct H as (_ & _ & Hc & Ha & Hr). lia.
  - now subst.
  - now subst.
Qed.

Lemma remove_tool_consistent self tid :
  counters_consistent self -> counters_consistent (snd (remove_tool self tid)).
Proof.
  unfold counters_consistent. intros Hinv.
  pose proof (remove_tool_counts self tid) as H.
  destruct (remove_tool self tid) as [[] self']; simpl.
  - destruct H as (_ & _ & Hc & Hr & Ha). lia.
  - destruct H as [_ ->]. exact Hinv.
Qed.

Lemma remove_all_consistent ids self :
  counters_consistent self ->
  counters_consistent (foldl (fun s tid => snd (remove_tool s tid)) self ids).
Proof.
  revert self. induction ids as [|tid ids IH]; intros self Hinv; [exact Hinv|].
  simpl. apply IH. now apply remove_tool_consistent.
Qed.

Lemma cleanup_consistent self :
  counters_consistent self -> counters_consistent (cleanup self).
Proof. intros Hinv. unfold cleanup. now apply remove_all_consistent. Qed.

Lemma _initialize_tool_counts self tid now :
  count (_initialize_tool self tid now) = count self /\
  total_added (_initialize_tool self tid now) = total_added self /\
  total_removed (_initialize_tool self tid now) = total_removed self.
Proof.
  unfold _initialize_tool, count.
  destruct (_tool_map self !! tid) as [entry|]; [|now simpl].
  destruct (tool_initialize (tool_instance entry)) as [[[]|]|];
    simpl; now rewrite size_alter.
Qed.

Lemma background_init_consistent self tid now :
  counters_consistent self -> counters_consistent (background_init self tid now).
Proof.
  unfold background_init, counters_consistent. intros Hinv.
  destruct (_initialization_tasks self !! tid) as [[[]]|]; try exact Hinv.
  destruct (_initialize_tool_counts self tid now) as (-> & -> & ->). exact Hinv.
Qed.

Lemma apply_event_consistent self ev :
  counters_consistent self -> counters_consistent (apply_event self ev).
Proof.
  destruct ev; simpl.
  - apply add_tool_consistent.
  - apply remove_tool_consistent.
  - apply cleanup_consistent.
  - apply background_init_consistent.
Qed.

(** C9. Whatever calls of [add_tool], [remove_tool] and [cleanup] a fresh
    registry receives, with background initializations running in between,
    [count()] equals [total_added - total_removed] afterwards. [add_tool]
    inserts an entry and adds one to [total_added] when it answers [True],
    and changes nothing otherwise; [remove_tool] deletes the entry and adds
    one to [total_removed] when it answers [True], and changes nothing
    otherwise. *)
Theorem counters_track_map_size :
  (forall sid mx now evs,
     counters_consistent (run_events (new_manager sid mx now) evs)) /\
  (forall self tid inst nm desc hn llm sp caps kws md now,
     match add_tool self tid inst nm desc hn llm sp caps kws md now with
     | (Ret true, self') =>
         _tool_map self !! tid = None /\
         (exists entry, _tool_map self' = <[tid := entry]> (_tool_map self)) /\
         count self' = count self + 1 /\
         total_added self' = total_added self + 1 /\
         total_removed self' = total_removed self
     | (_, self') => self' = self
     end) /\
  (forall self tid,
     match remove_tool self tid with
     | (true, self') =>
         is_Some (_tool_map self !! tid) /\
         _tool_map self' = delete tid (_tool_map self) /\
         count self' = count self - 1 /\
         total_removed self' = total_removed self + 1 /\
         total_added self' = total_added self
     | (false, self') => _tool_map self !! tid = None /\ self' = self
     end).
Proof.
  split; [|split].
  - intros sid mx now evs. unfold run_events.
    generalize (counters_consistent_new sid mx now).
    generalize (new_manager sid mx now).
    induction evs as [|ev evs IH]; intros self Hinv; [exact Hinv|].
    simpl. apply IH. now apply apply_event_consistent.
  - apply add_tool_counts.
  - apply remove_tool_counts.
Qed.

(** ** The bounded history *)

Lemma most_recent_idem {A : Type} (m : nat) (a b : list A) :
  most_recent m (most_recent m a ++ b) = most_recent m (a ++ b).
Proof.
  unfold most_recent. rewrite !length_app, length_drop.
  rewrite !drop_app, length_drop, drop_drop.
  destruct (le_lt_dec (length a) m) as [Hle|Hgt].
  - replace (length a - m)%nat with 0%nat by lia. simpl.
    rewrite !Nat.sub_0_r. reflexivity.
  - f_equal.
    + f_equal. lia.
    + f_equal. lia.
Qed.

Lemma add_to_execution_history_history (e : ToolEntryDTO) (entry : Dict)
    (now : datetime) :
  (1 <= max_history_size e)%Z ->
  execution_history (add_to_execution_history e entry now) =
  most_recent (Z.to_nat (max_history_size e))
    (execution_history e ++ [stamped entry now]).
Proof.
  intros Hpos. unfold add_to_execution_history, slice_from_neg, most_recent.
  destruct (Z.ltb_spec (max_history_size e)
              (Z.of_nat (length (execution_history e ++ [stamped entry now]))))
    as [Hlt|Hge]; simpl.
  - destruct (Z.ltb_spec 0 (max_history_size e)); [reflexivity | lia].
  - replace (length (execution_history e ++ [stamped entry now])
             - Z.to_nat (max_history_size e))%nat with 0%nat by lia.
    reflexivity.
Qed.

Lemma add_to_execution_history_cap (e : ToolEntryDTO) (entry : Dict)
    (now : datetime) :
  max_history_size (add_to_execution_history e entry now) = max_history_size e.
Proof.
  unfold add_to_execution_history. now destruct (_ <? _)%Z.
Qed.

Lemma add_all_cap (entries : list (Dict * datetime)) (e : ToolEntryDTO) :
  max_history_size (add_all_to_execution_history e entries) = max_history_size e.
Proof.
  revert e. induction entries as [|r entries IH]; intros e; [reflexivity|].
  simpl. unfold add_all_to_execution_history in IH. rewrite IH.
  apply add_to_execution_history_cap.
Qed.

Lemma most_recent_length {A : Type} (m : nat) (l : list A) :
  (length (most_recent m l) <= m)%nat.
Proof. unfold most_recent. rewrite length_drop. lia. Qed.

Lemma most_recent_short {A : Type} (m : nat) (l : list A) :
  (length l <= m)%nat -> most_recent m l = l.
Proof.
  intros H. unfold most_recent.
  now replace (length l - m)%nat with 0%nat by lia.
Qed.

(** With a cap of at least one, the history after any sequence of additions
    is the most recent [max_history_size] of everything it was given, in
    insertion order, and so never longer than the cap. *)
Lemma add_all_history (entries : list (Dict * datetime)) (e : ToolEntryDTO) :
  (1 <= max_history_size e)%Z ->
  (Z.of_nat (length (execution_history e)) <= max_history_size e)%Z ->
  execution_history (add_all_to_execution_history e entries) =
  most_recent (Z.to_nat (max_history_size e))
    (execution_history e ++ map (fun r => stamped (fst r) (snd r)) entries).
Proof.
  revert e. induction entries as [|r entries IH]; intros e Hpos Hlen.
  - simpl. rewrite app_nil_r. symmetry. apply most_recent_short. lia.
  - change (add_all_to_execution_history e (r :: entries))
      with (add_all_to_execution_history
              (add_to_execution_history e (fst r) (snd r)) entries).
    pose proof (add_to_execution_history_history e (fst r) (snd r) Hpos) as Hstep.
    pose proof (add_to_execution_history_cap e (fst r) (snd r)) as Hcap.
    rewrite IH; rewrite ?Hcap; [|exact Hpos|].
    + rewrite Hstep, most_recent_idem. simpl map.
      now rewrite <- app_assoc.
    + rewrite Hstep.
      pose proof (most_recent_length (Z.to_nat (max_history_size e))
                    (execution_history e ++ [stamped (fst r) (snd r)])).
      lia.
Qed.

Lemma add_all_history_bounded (entries : list (Dict * datetime)) (e : ToolEntryDTO) :
  (1 <= max_history_size e)%Z ->
  (Z.of_nat (length (execution_history e)) <= max_history_size e)%Z ->
  (Z.of_nat (length (execution_history (add_all_to_execution_history e entries)))
   <= max_history_size e)%Z.
Proof.
  intros Hpos Hlen. rewrite add_all_history by assumption.
  pose proof (most_recent_length (Z.to_nat (max_history_size e))
                (execution_history e
                 ++ map (fun r => stamped (fst r) (snd r)) entries)).
  lia.
Qed.

(** [record_error] files its record through [add_to_execution_history]. *)
Lemma record_error_history (e : ToolEntryDTO) (error : string) (now : datetime) :
  (1 <= max_history_size e)%Z ->
  exists record,
    execution_history (record_error e error now) =
    most_recent (Z.to_nat (max_history_size e)) (execution_history e ++ [record]).
Proof.
  intros Hpos. unfold record_error. eexists.
  now rewrite add_to_execution_history_history.
Qed.

(** C7, at a cap of zero. An entry built with [max_history_size = 0] keeps
    the record it is given: the trimming slice [history[-0:]] is the whole
    list, so the history then holds more records than the cap and keeps
    growing with every addition. *)
Theorem history_cap_zero_not_enforced :
  max_history_size uncapped_entry = 0 /\
  execution_history uncapped_entry = [] /\
  (forall entries,
     length (execution_history
               (add_all_to_execution_history uncapped_entry entries))
     = length entries) /\
  length (execution_history
            (add_to_execution_history uncapped_entry ∅ epoch)) = 1%nat.
Proof.
  split; [reflexivity|]. split; [reflexivity|]. split; [|reflexivity].
  assert (forall entries e, max_history_size e = 0 ->
            length (execution_history (add_all_to_execution_history e entries))
            = (length (execution_history e) + length entries)%nat) as Hgrow.
  { induction entries as [|r entries IH]; intros e Hcap.
    - simpl. lia.
    - change (add_all_to_execution_history e (r :: entries))
        with (add_all_to_execution_history
                (add_to_execution_history e (fst r) (snd r)) entries).
      rewrite IH by (now rewrite add_to_execution_history_cap).
      unfold add_to_execution_history, slice_from_neg. rewrite Hcap.
      destruct (_ <? _)%Z; simpl; try change (Z.to_nat (- 0)) with 0%nat;
        rewrite ?drop_0, length_app; simpl; lia. }
  intros entries. now rewrite Hgrow.
Qed.

(** ** Executing one tool *)

Lemma add_to_execution_history_frame (e : ToolEntryDTO) (entry : Dict)
    (now : datetime) :
  let e' := add_to_execution_history e entry now in
  status e' = status e /\ tool_instance e' = tool_instance e /\
  execution_count e' = execution_count e /\
  total_execution_time e' = total_execution_time e /\
  average_execution_time e' = average_execution_time e /\
  error_count e' = error_count e /\ last_error e' = last_error e.
Proof.
  unfold add_to_execution_history. destruct (_ <? _)%Z; repeat split.
Qed.

Section ExecuteTool.

Variable py_str : Dict -> string.

(** C1. Executing a READY entry whose tool returns a result map holding
    [success = True] returns that map as it is, adds one to the entry's
    [execution_count], sets [average_execution_time] to
    [total_execution_time / execution_count], adds one to the registry's
    [total_executions] and leaves the entry READY. *)
Theorem execute_tool_success_round_trip (self : ToolMapManager) (tid : string)
    (entry : ToolEntryDTO) (context : Dict) (clk : Clock)
    (result context' : Dict) (dt : Q) :
  _tool_map self !! tid = Some entry ->
  status entry = READY ->
  tool_execute (tool_instance entry) context = Returns result context' dt ->
  result !! "success" = Some (VBool true) ->
  exists self' entry',
    execute_tool py_str self tid context clk = (result, self', context') /\
    _tool_map self' !! tid = Some entry' /\
    execution_count entry' = execution_count entry + 1 /\
    total_execution_time entry' = (total_execution_time entry + dt)%Q /\
    average_execution_time entry' =
      (total_execution_time entry' / inject_Z (execution_count entry'))%Q /\
    total_executions self' = total_executions self + 1 /\
    status entry' = READY.
Proof.
  intros Hget Hready Hexec _.
  unfold execute_tool. rewrite Hget, Hready. simpl status_eqb. cbv iota.
  rewrite Hget. simpl default. unfold is_ready. rewrite Hready.
  simpl negb. cbv iota. rewrite Hexec.
  eexists _, _. split; [reflexivity|].
  split.
  { simpl. rewrite !lookup_alter_eq, Hget. reflexivity. }
  simpl.
  destruct (add_to_execution_history_frame
              (update_execution_stats (set_status entry EXECUTING) dt (now_stats clk))
              (history_record py_str context' result dt) (now_history clk))
    as (_ & _ & Hcount & Htotal & Haverage & _).
  rewrite Hcount, Htotal, Haverage. repeat split.
Qed.


End ExecuteTool.

Lemma execute_tool_success_round_trip_witness :
  exists self' entry',
    execute_tool no_str cost_registry "cost_estimator" query_context fixed_clock
    = (stub_result, self', query_context) /\
    _tool_map self' !! "cost_estimator" = Some entry' /\
    execution_count entry' = execution_count cost_registered_entry + 1 /\
    total_execution_time entry' =
      (total_execution_time cost_registered_entry + 0.5)%Q /\
    average_execution_time entry' =
      (total_execution_time entry' / inject_Z (execution_count entry'))%Q /\
    total_executions self' = total_executions cost_registry + 1 /\
    status entry' = READY.
Proof.
  apply (execute_tool_success_round_trip no_str cost_registry "cost_estimator"
           cost_registered_entry query_context fixed_clock
           stub_result query_context 0.5);
    reflexivity.
Defined.



(** ** Batches *)






Section Batches.

Variable py_str : Dict -> string.




Lemma sequential_loop_cons (tid : string) (rest : list string)
    (clock : nat -> Clock) (self : ToolMapManager) (context : Dict)
    (results : BatchResults) :
  sequential_loop py_str (tid :: rest) clock self context results =
  let r := execute_tool py_str self tid context (clock O) in
  sequential_loop py_str rest (fun i => clock (S i)) r.1.2 (next_context tid r)
    (next_results tid r.1.1 results).
Proof.
  simpl. unfold next_context, next_results.
  destruct (execute_tool py_str self tid context (clock O)) as [[result self'] context'].
  simpl. destruct (dict_get_truthy result "success"); reflexivity.
Qed.









End Batches.


(** ** The parallel branch *)

Section Parallel.

Variable py_str : Dict -> string.

Lemma gather_calls_cons (tid : string) (rest : list string)
    (clock : nat -> Clock) (self : ToolMapManager) (context : Dict) :
  gather_calls py_str (tid :: rest) clock self context =
  let r := execute_tool py_str self tid context (clock O) in
  let g := gather_calls py_str rest (fun i => clock (S i)) r.1.2 context in
  (GResult r.1.1 :: g.1, g.2).
Proof.
  simpl.
  destruct (execute_tool py_str self tid context (clock O)) as [[result self'] context'].
  simpl. now destruct (gather_calls py_str rest _ self' context).
Qed.

(** Every call of a parallel batch is handed the content the context had
    when the batch started, whatever the calls before it did to theirs,
    and what comes back for it is the result of that call. *)
Lemma gather_calls_from_initial_context (before : list string) :
  forall (tid : string) (rest : list string) (clock : nat -> Clock)
         (self : ToolMapManager) (context : Dict),
    (gather_calls py_str (before ++ tid :: rest) clock self context).1
    !! length before
    = Some (GResult
              (execute_tool py_str
                 (gather_calls py_str before clock self context).2 tid context
                 (clock (length before))).1.1).
Proof.
  induction before as [|b before IH]; intros tid rest clock self context.
  - simpl app. rewrite gather_calls_cons. reflexivity.
  - change ((b :: before) ++ tid :: rest)%list
      with (b :: (before ++ tid :: rest))%list.
    rewrite !gather_calls_cons. cbv zeta. simpl.
    apply (IH tid rest (fun i => clock (S i))).
Qed.

Lemma gather_calls_length (tool_ids : list string) :
  forall (clock : nat -> Clock) (self : ToolMapManager) (context : Dict),
    length (gather_calls py_str tool_ids clock self context).1 = length tool_ids.
Proof.
  induction tool_ids as [|tid rest IH]; intros clock self context; [reflexivity|].
  rewrite gather_calls_cons. cbv zeta. simpl. now rewrite IH.
Qed.

(** [execute_tool] turns what a tool raises into a failure result, so no
    exception object comes out of the gathering. *)
Lemma gather_calls_all_results (tool_ids : list string) :
  forall (clock : nat -> Clock) (self : ToolMapManager) (context : Dict),
    forallb is_result (gather_calls py_str tool_ids clock self context).1 = true.
Proof.
  induction tool_ids as [|tid rest IH]; intros clock self context; [reflexivity|].
  rewrite gather_calls_cons. cbv zeta. simpl. apply IH.
Qed.


(** An exception object among the gathered items becomes a failure result
    for its tool and clears the aggregate flag; the items after it are
    still collected ([collect_gathered_ids]). *)
Lemma collect_gathered_exception (pairs : list (string * GatherItem)) :
  forall results tid msg,
    (tid, GException msg) ∈ pairs ->
    success (collect_gathered pairs results) = false.
Proof.
  assert (forall pairs results, success results = false ->
            success (collect_gathered pairs results) = false) as Hstays.
  { clear. induction pairs as [|[t item] pairs IH]; intros results Hres;
      [exact Hres|].
    simpl. destruct item; apply IH; exact Hres || reflexivity. }
  induction pairs as [|[t item] pairs IH]; intros results tid msg Hin.
  - now apply elem_of_nil in Hin.
  - apply elem_of_cons in Hin as [Heq|Hin].
    + injection Heq as <- <-. simpl. now apply Hstays.
    + simpl. destruct item; eapply IH; exact Hin.
Qed.

(** Return values leave the aggregate flag as it is, whatever they hold. *)
Lemma collect_gathered_results_keep_flag (pairs : list (string * GatherItem)) :
  forall results,
    forallb is_result (map snd pairs) = true ->
    success (collect_gathered pairs results) = success results.
Proof.
  induction pairs as [|[tid item] pairs IH]; intros results Hall; [reflexivity|].
  simpl in Hall. apply andb_true_iff in Hall as [Hitem Hall].
  destruct item; [|discriminate]. simpl. now rewrite IH.
Qed.

Lemma parallel_flag_stays_true (self : ToolMapManager) (tool_ids : list string)
    (context : Dict) (clock : nat -> Clock) (elapsed : Q) :
  success (execute_multiple_tools py_str self tool_ids context false clock
             elapsed).1.1 = true.
Proof.
  unfold execute_multiple_tools.
  pose proof (gather_calls_all_results tool_ids clock self context) as Hall.
  pose proof (gather_calls_length tool_ids clock self context) as Hlen.
  destruct (gather_calls py_str tool_ids clock self context) as [items self'].
  simpl in *.
  rewrite collect_gathered_results_keep_flag; [reflexivity|].
  rewrite snd_zip by lia. exact Hall.
Qed.

End Parallel.

(** C5, on a batch with a failing tool. In parallel mode the aggregate
    [success] stays [True] although the one tool of the batch failed: the
    loop over the gathered items clears the flag for exception objects
    only, and [execute_tool] has already turned what the tool raised into
    a failure result. The same batch in sequential mode ends with
    [success = False]. The flag of a parallel batch is [True] for every
    registry, list of ids and context. *)
Theorem parallel_batch_success_ignores_failures :
  let parallel :=
    execute_multiple_tools no_str mixed_registry ["broken"] query_context
      false (fun _ => fixed_clock) 1.5 in
  let sequential :=
    execute_multiple_tools no_str mixed_registry ["broken"] query_context
      true (fun _ => fixed_clock) 1.5 in
  tool_results parallel.1.1 !! "broken" = Some (failure_result "boom" "broken") /\
  failure_result "boom" "broken" !! "success" = Some (VBool false) /\
  success parallel.1.1 = true /\
  success sequential.1.1 = false /\
  (forall py_str self tool_ids context clock elapsed,
     success (execute_multiple_tools py_str self tool_ids context false clock
                elapsed).1.1 = true).
Proof.
  repeat split; try reflexivity.
  intros. apply parallel_flag_stays_true.
Qed.

(** * More of the entry and of the registry *)

(** ** Entries *)

Lemma add_to_execution_history_shape (e : ToolEntryDTO) (entry : Dict)
    (now : datetime) :
  add_to_execution_history e entry now
  = set_execution_history e
      (execution_history (add_to_execution_history e entry now)).
Proof. unfold add_to_execution_history. now destruct (_ <? _)%Z. Qed.

Lemma add_to_execution_history_within_cap (e : ToolEntryDTO) (entry : Dict)
    (now : datetime) :
  (1 <= max_history_size e)%Z ->
  (Z.of_nat (length (execution_history (add_to_execution_history e entry now)))
   <= max_history_size e)%Z.
Proof.
  intros Hpos. rewrite add_to_execution_history_history by exact Hpos.
  pose proof (most_recent_length (Z.to_nat (max_history_size e))
                (execution_history e ++ [stamped entry now])).
  lia.
Qed.

Lemma entry_ok_after_success (tid : string) (e : ToolEntryDTO) (dt : Q)
    (record : Dict) (now now' : datetime) :
  entry_ok tid e ->
  entry_ok tid
    (set_status
       (add_to_execution_history
          (update_execution_stats (set_status e EXECUTING) dt now) record now')
       READY).
Proof.
  intros [].
  pose proof (add_to_execution_history_within_cap
                (update_execution_stats (set_status e EXECUTING) dt now)
                record now') as Hlen.
  rewrite add_to_execution_history_shape.
  set (h := execution_history (add_to_execution_history _ record now')) in *.
  clearbody h. simpl in Hlen. rewrite ok_cap0 in Hlen.
  constructor; simpl; try assumption; try lia; try discriminate;
    try (intros; first [reflexivity | lia]).
Qed.

Lemma entry_ok_after_failure (tid : string) (e : ToolEntryDTO) (msg : string)
    (now : datetime) :
  entry_ok tid e ->
  entry_ok tid (set_status (record_error e msg now) READY).
Proof.
  intros []. unfold record_error.
  match goal with
  | |- context [add_to_execution_history ?e0 ?r ?t] =>
      pose proof (add_to_execution_history_within_cap e0 r t) as Hlen;
      rewrite (add_to_execution_history_shape e0 r t);
      set (h := execution_history (add_to_execution_history e0 r t)) in *;
      clearbody h
  end.
  simpl in Hlen. rewrite ok_cap0 in Hlen.
  constructor; simpl; try assumption; try lia; try discriminate;
    try (intros; first [reflexivity | lia]).
Qed.

Lemma entry_ok_after_init_error (tid : string) (e : ToolEntryDTO) (msg : string)
    (now : datetime) :
  entry_ok tid e ->
  entry_ok tid (record_error (set_status e ERROR) msg now).
Proof.
  intros []. unfold record_error.
  match goal with
  | |- context [add_to_execution_history ?e0 ?r ?t] =>
      pose proof (add_to_execution_history_within_cap e0 r t) as Hlen;
      rewrite (add_to_execution_history_shape e0 r t);
      set (h := execution_history (add_to_execution_history e0 r t)) in *;
      clearbody h
  end.
  simpl in Hlen. rewrite ok_cap0 in Hlen.
  constructor; simpl; try assumption; try lia; try discriminate;
    try (intros; first [reflexivity | lia]).
Qed.

Lemma entry_ok_set_status (tid : string) (e : ToolEntryDTO) (s : ToolStatusENUM) :
  s <> EXECUTING -> entry_ok tid e -> entry_ok tid (set_status e s).
Proof. intros Hs []. constructor; simpl; assumption. Qed.

Lemma entry_ok_set_initialized_at (tid : string) (e : ToolEntryDTO)
    (now : datetime) :
  entry_ok tid e -> entry_ok tid (set_initialized_at e now).
Proof. intros []. constructor; simpl; assumption. Qed.

(** ** Registries between calls *)

Lemma registry_ok_new (sid : string) (mx : Z) (now : datetime) :
  registry_ok (new_manager sid mx now).
Proof.
  constructor; simpl.
  - intros tid e H. now rewrite lookup_empty in H.
  - intros tid [t H]. now rewrite lookup_empty in H.
  - unfold count. simpl. rewrite map_size_empty. lia.
  - reflexivity.
  - lia.
  - lia.
Qed.

Lemma update_entry_ok (self : ToolMapManager) (tid : string)
    (f : ToolEntryDTO -> ToolEntryDTO) :
  registry_ok self ->
  (forall e, _tool_map self !! tid = Some e -> entry_ok tid e -> entry_ok tid (f e)) ->
  registry_ok (update_entry self tid f).
Proof.
  intros [] Hf. constructor; simpl.
  - intros t e He. rewrite lookup_alter in He. case_decide.
    + subst t. destruct (_tool_map self !! tid) as [e0|] eqn:Hget; [|discriminate].
      injection He as <-. apply Hf; [reflexivity|]. now apply ok_entries0.
    + now apply ok_entries0.
  - intros t Ht. apply lookup_alter_is_Some. now apply ok_handles0.
  - unfold count in *. simpl. now rewrite size_alter.
  - unfold counters_consistent, count in *. simpl. now rewrite size_alter.
  - assumption.
  - assumption.
Qed.

Lemma update_entry_compose (self : ToolMapManager) (tid : string)
    (f g : ToolEntryDTO -> ToolEntryDTO) :
  update_entry (update_entry self tid f) tid g
  = update_entry self tid (fun e => g (f e)).
Proof.
  unfold update_entry, with_tool_map. simpl. f_equal.
  apply alter_alter_eq.
Qed.

Lemma drop_handle_ok (self : ToolMapManager) (tid : string) :
  registry_ok self ->
  registry_ok (with_tasks self (delete tid (_initialization_tasks self))).
Proof.
  intros []. constructor; simpl; try assumption.
  intros t Ht. apply ok_handles0.
  rewrite lookup_delete in Ht. case_decide; [now destruct Ht | exact Ht].
Qed.

Lemma incr_total_executions_ok (self : ToolMapManager) :
  registry_ok self -> registry_ok (incr_total_executions self).
Proof. intros []. constructor; simpl; try assumption. lia. Qed.

Lemma _initialize_tool_ok (self : ToolMapManager) (tid : string) (now : datetime) :
  registry_ok self -> registry_ok (_initialize_tool self tid now).
Proof.
  intros Hok. unfold _initialize_tool. apply drop_handle_ok.
  destruct (_tool_map self !! tid) as [entry|]; [|exact Hok].
  destruct (tool_initialize (tool_instance entry)) as [[[]|msg]|];
    apply update_entry_ok; try exact Hok; intros e _ He.
  - apply entry_ok_set_initialized_at. now apply entry_ok_set_status.
  - now apply entry_ok_set_status.
  - now apply entry_ok_after_init_error.
  - apply entry_ok_set_initialized_at. now apply entry_ok_set_status.
Qed.

Lemma _ensure_tool_initialized_ok (self : ToolMapManager) (tid : string)
    (now : datetime) :
  registry_ok self -> registry_ok (_ensure_tool_initialized self tid now).
Proof.
  intros Hok. unfold _ensure_tool_initialized.
  destruct (_tool_map self !! tid); [|exact Hok].
  destruct (status_eqb _ _); [now apply _initialize_tool_ok | exact Hok].
Qed.

Lemma background_init_ok (self : ToolMapManager) (tid : string) (now : datetime) :
  registry_ok self -> registry_ok (background_init self tid now).
Proof.
  intros Hok. unfold background_init.
  destruct (_initialization_tasks self !! tid) as [[[]]|]; try exact Hok.
  now apply _initialize_tool_ok.
Qed.

Lemma count_nonneg (self : ToolMapManager) : 0 <= count self.
Proof. unfold count. lia. Qed.

Lemma remove_tool_ok (self : ToolMapManager) (tid : string) :
  registry_ok self -> registry_ok (remove_tool self tid).2.
Proof.
  intros Hok.
  pose proof (remove_tool_consistent self tid (ok_counters _ Hok)) as Hcons.
  pose proof (remove_tool_counts self tid) as Hcounts.
  destruct Hok. unfold remove_tool in *.
  destruct (_tool_map self !! tid) as [entry|] eqn:Hget; reg_simpl;
    [|now constructor].
  destruct Hcounts as (_ & _ & Hc & Hr & Ha).
  constructor; reg_simpl.
  - intros t e He. rewrite lookup_delete in He. case_decide; [discriminate|].
    now apply ok_entries0.
  - intros t Ht. rewrite lookup_delete in Ht. rewrite lookup_delete.
    case_decide; [now destruct Ht | now apply ok_handles0].
  - unfold counters_consistent in *. lia.
  - exact Hcons.
  - unfold counters_consistent in *.
    match type of Hc with count ?x = _ => pose proof (count_nonneg x) end. lia.
  - assumption.
Qed.

Lemma remove_all_ok (ids : list string) (self : ToolMapManager) :
  registry_ok self ->
  registry_ok (foldl (fun s tid => (remove_tool s tid).2) self ids).
Proof.
  revert self. induction ids as [|tid ids IH]; intros self Hok; [exact Hok|].
  simpl. apply IH. now apply remove_tool_ok.
Qed.

Lemma cleanup_ok (self : ToolMapManager) :
  registry_ok self -> registry_ok (cleanup self).
Proof.
  intros Hok. unfold cleanup. apply remove_all_ok.
  destruct Hok. constructor; simpl; try assumption.
  intros t Ht. apply ok_handles0. rewrite lookup_fmap in Ht.
  destruct (_initialization_tasks self !! t); [eauto | now destruct Ht].
Qed.

Lemma add_tool_ok self tid inst nm desc hn llm sp caps kws md now :
  registry_ok self ->
  registry_ok (add_tool self tid inst nm desc hn llm sp caps kws md now).2.
Proof.
  intros Hok. unfold add_tool.
  destruct (Z.geb_spec (count self) (max_tools self)) as [Hge|Hlt]; [exact Hok|].
  destruct (decide (is_Some (_tool_map self !! tid))) as [Hdup|Hfresh]; [exact Hok|].
  apply eq_None_not_Some in Hfresh.
  unfold new_entry. destruct (String.eqb tid "") eqn:Hid; [exact Hok|].
  apply String.eqb_neq in Hid.
  assert (forall entry,
            entry_ok tid entry ->
            registry_ok
              (incr_total_added
                 (with_tool_map self (<[tid := entry]> (_tool_map self)))))
    as Hinsert.
  { intros entry Hentry. destruct Hok. constructor; simpl.
    - intros t e He. rewrite lookup_insert in He. case_decide.
      + subst t. now injection He as <-.
      + now apply ok_entries0.
    - intros t Ht. rewrite lookup_insert. case_decide; [eauto|].
      now apply ok_handles0.
    - unfold count in *. simpl. rewrite map_size_insert_None by assumption. lia.
    - unfold counters_consistent, count in *. simpl.
      rewrite map_size_insert_None by assumption. lia.
    - lia.
    - assumption. }
  destruct (tool_initialize inst) as [init|]; simpl.
  - match goal with
    | |- registry_ok (with_tasks ?s _) =>
        assert (registry_ok s) as Hs
    end.
    { apply Hinsert. constructor; simpl; try reflexivity; try lia;
        try discriminate; try assumption; try (intros; first [now repeat split | lia]).
      now apply str_or_nonempty. }
    destruct Hs. constructor; simpl in *; try assumption.
    intros t Ht. rewrite lookup_insert in Ht. case_decide.
    + subst t. rewrite lookup_insert_eq. eauto.
    + now apply ok_handles0.
  - apply update_entry_ok.
    + apply Hinsert. constructor; simpl; try reflexivity; try lia;
        try discriminate; try assumption; try (intros; first [now repeat split | lia]).
      now apply str_or_nonempty.
    + intros e _ He. apply entry_ok_set_initialized_at.
      now apply entry_ok_set_status.
Qed.

Lemma apply_event_ok (self : ToolMapManager) (ev : RegistryEvent) :
  registry_ok self -> registry_ok (apply_event self ev).
Proof.
  destruct ev; simpl.
  - apply add_tool_ok.
  - apply remove_tool_ok.
  - apply cleanup_ok.
  - apply background_init_ok.
Qed.

Section SessionInvariant.

Variable py_str : Dict -> string.

(** The registry after [execute_tool] ran a ready tool that returned. *)
Lemma executed_state (self : ToolMapManager) (tid : string) (dt : Q)
    (record : Dict) (now now' : datetime) :
  update_entry
    (update_entry
       (incr_total_executions
          (update_entry
             (update_entry self tid (fun e => set_status e EXECUTING)) tid
             (fun e => update_execution_stats e dt now))) tid
       (fun e => add_to_execution_history e record now')) tid
    (fun e => set_status e READY)
  = incr_total_executions
      (update_entry self tid
         (fun e =>
            set_status
              (add_to_execution_history
                 (update_execution_stats (set_status e EXECUTING) dt now)
                 record now') READY)).
Proof.
  unfold update_entry, with_tool_map, incr_total_executions. reg_simpl.
  f_equal. rewrite !alter_alter_eq. reflexivity.
Qed.

(** The registry after [execute_tool] ran a ready tool that raised. *)
Lemma failed_state (self : ToolMapManager) (tid : string) (msg : string)
    (now : datetime) :
  update_entry
    (update_entry
       (update_entry self tid (fun e => set_status e EXECUTING)) tid
       (fun e => record_error e msg now)) tid
    (fun e => set_status e READY)
  = update_entry self tid
      (fun e => set_status (record_error (set_status e EXECUTING) msg now) READY).
Proof.
  unfold update_entry, with_tool_map. reg_simpl.
  f_equal. rewrite !alter_alter_eq. reflexivity.
Qed.

Lemma record_error_after_executing (e : ToolEntryDTO) (msg : string)
    (now : datetime) :
  record_error (set_status e EXECUTING) msg now = record_error e msg now.
Proof. reflexivity. Qed.

Lemma execute_tool_ok (self : ToolMapManager) (tid : string) (context : Dict)
    (clk : Clock) :
  registry_ok self -> registry_ok (execute_tool py_str self tid context clk).1.2.
Proof.
  intros Hok. unfold execute_tool.
  destruct (_tool_map self !! tid) as [entry0|]; [|exact Hok].
  set (self1 := if status_eqb (status entry0) UNINITIALIZED
                then _ensure_tool_initialized self tid (now_init clk)
                else self).
  assert (registry_ok self1) as Hok1.
  { subst self1. destruct (status_eqb _ _);
      [now apply _ensure_tool_initialized_ok | exact Hok]. }
  destruct (negb _); [exact Hok1|].
  destruct (tool_execute _ context) as [result context' dt|msg context'].
  - cbn [fst snd]. rewrite executed_state.
    apply incr_total_executions_ok, update_entry_ok; [exact Hok1|].
    intros e _ He. now apply entry_ok_after_success.
  - cbn [fst snd]. rewrite failed_state.
    apply update_entry_ok; [exact Hok1|].
    intros e _ He. rewrite record_error_after_executing.
    now apply entry_ok_after_failure.
Qed.

Lemma sequential_loop_ok (tool_ids : list string) :
  forall (clock : nat -> Clock) (self : ToolMapManager) (context : Dict)
         (results : BatchResults),
    registry_ok self ->
    registry_ok (sequential_loop py_str tool_ids clock self context results).1.2.
Proof.
  induction tool_ids as [|tid rest IH]; intros clock self context results Hok;
    [exact Hok|].
  rewrite sequential_loop_cons. cbv zeta. apply IH. now apply execute_tool_ok.
Qed.

Lemma gather_calls_ok (tool_ids : list string) :
  forall (clock : nat -> Clock) (self : ToolMapManager) (context : Dict),
    registry_ok self ->
    registry_ok (gather_calls py_str tool_ids clock self context).2.
Proof.
  induction tool_ids as [|tid rest IH]; intros clock self context Hok;
    [exact Hok|].
  rewrite gather_calls_cons. cbv zeta. cbn [snd]. apply IH.
  now apply execute_tool_ok.
Qed.

Lemma execute_multiple_tools_ok (self : ToolMapManager) (tool_ids : list string)
    (context : Dict) (sequential : bool) (clock : nat -> Clock) (elapsed : Q) :
  registry_ok self ->
  registry_ok
    (execute_multiple_tools py_str self tool_ids context sequential clock
       elapsed).1.2.
Proof.
  intros Hok. unfold execute_multiple_tools. destruct sequential.
  - pose proof (sequential_loop_ok tool_ids clock self context empty_results Hok).
    now destruct (sequential_loop _ _ _ _ _ _) as [[results self'] context'].
  - pose proof (gather_calls_ok tool_ids clock self context Hok).
    now destruct (gather_calls _ _ _ _ _) as [items self'].
Qed.

Lemma run_session_ok (evs : list SessionEvent) :
  forall self, registry_ok self -> registry_ok (run_session py_str self evs).
Proof.
  induction evs as [|ev evs IH]; intros self Hok; [exact Hok|].
  simpl. apply IH. destruct ev; simpl.
  - now apply apply_event_ok.
  - now apply execute_tool_ok.
  - now apply execute_multiple_tools_ok.
Qed.

End SessionInvariant.

(** ** What a session never changes *)

Lemma update_entry_max_tools self tid f :
  max_tools (update_entry self tid f) = max_tools self.
Proof. reflexivity. Qed.

Lemma _initialize_tool_max_tools self tid now :
  max_tools (_initialize_tool self tid now) = max_tools self.
Proof.
  unfold _initialize_tool.
  destruct (_tool_map self !! tid) as [entry|]; [|reflexivity].
  now destruct (tool_initialize (tool_instance entry)) as [[[]|]|].
Qed.

Lemma remove_tool_max_tools self tid :
  max_tools (remove_tool self tid).2 = max_tools self.
Proof. unfold remove_tool. now destruct (_tool_map self !! tid). Qed.

Lemma add_tool_max_tools self tid inst nm desc hn llm sp caps kws md now :
  max_tools (add_tool self tid inst nm desc hn llm sp caps kws md now).2
  = max_tools self.
Proof.
  unfold add_tool. destruct (_ >=? _)%Z; [reflexivity|].
  destruct (decide _); [reflexivity|].
  unfold new_entry. destruct (String.eqb tid ""); [reflexivity|].
  now destruct (tool_initialize inst).
Qed.

Lemma remove_all_max_tools (ids : list string) (self : ToolMapManager) :
  max_tools (foldl (fun s tid => (remove_tool s tid).2) self ids) = max_tools self.
Proof.
  revert self. induction ids as [|t ids IH]; intros self; [reflexivity|].
  simpl. rewrite IH. apply remove_tool_max_tools.
Qed.

Lemma apply_event_max_tools self ev :
  max_tools (apply_event self ev) = max_tools self.
Proof.
  destruct ev; simpl.
  - apply add_tool_max_tools.
  - apply remove_tool_max_tools.
  - unfold cleanup. now rewrite remove_all_max_tools.
  - unfold background_init.
    destruct (_initialization_tasks self !! tool_id0) as [[[]]|]; try reflexivity.
    apply _initialize_tool_max_tools.
Qed.

Section SessionSettings.

Variable py_str : Dict -> string.

Lemma execute_tool_max_tools self tid context clk :
  max_tools (execute_tool py_str self tid context clk).1.2 = max_tools self.
Proof.
  unfold execute_tool.
  destruct (_tool_map self !! tid) as [entry0|]; [|reflexivity].
  set (self1 := if status_eqb (status entry0) UNINITIALIZED
                then _ensure_tool_initialized self tid (now_init clk)
                else self).
  assert (max_tools self1 = max_tools self) as <-.
  { subst self1. destruct (status_eqb _ _); [|reflexivity].
    unfold _ensure_tool_initialized.
    destruct (_tool_map self !! tid); [|reflexivity].
    destruct (status_eqb _ _); [apply _initialize_tool_max_tools | reflexivity]. }
  destruct (negb _); [reflexivity|].
  now destruct (tool_execute _ context).
Qed.

Lemma execute_multiple_tools_max_tools self tool_ids context sequential clock
    elapsed :
  max_tools
    (execute_multiple_tools py_str self tool_ids context sequential clock
       elapsed).1.2
  = max_tools self.
Proof.
  unfold execute_multiple_tools. destruct sequential.
  - assert (forall ids clock self context results,
              max_tools (sequential_loop py_str ids clock self context results).1.2
              = max_tools self) as Hloop.
    { clear. induction ids as [|t ids IH]; intros; [reflexivity|].
      rewrite sequential_loop_cons. cbv zeta.
      rewrite IH. apply execute_tool_max_tools. }
    specialize (Hloop tool_ids clock self context empty_results).
    now destruct (sequential_loop _ _ _ _ _ _) as [[results self'] context'].
  - assert (forall ids clock self context,
              max_tools (gather_calls py_str ids clock self context).2
              = max_tools self) as Hgather.
    { clear. induction ids as [|t ids IH]; intros; [reflexivity|].
      rewrite gather_calls_cons. cbv zeta. cbn [snd].
      rewrite IH. apply execute_tool_max_tools. }
    specialize (Hgather tool_ids clock self context).
    now destruct (gather_calls _ _ _ _ _) as [items self'].
Qed.

Lemma run_session_max_tools (evs : list SessionEvent) :
  forall self, max_tools (run_session py_str self evs) = max_tools self.
Proof.
  induction evs as [|ev evs IH]; intros self; [reflexivity|].
  simpl. rewrite IH. destruct ev; simpl.
  - apply apply_event_max_tools.
  - apply execute_tool_max_tools.
  - apply execute_multiple_tools_max_tools.
Qed.

(** X1. A registry created with capacity [mx] never holds more than [mx]
    entries (none when [mx] is negative), whatever the session does. *)
Theorem session_respects_capacity (sid : string) (mx : Z) (now : datetime)
    (evs : list SessionEvent) :
  count (run_session py_str (new_manager sid mx now) evs) <= Z.max 0 mx.
Proof.
  pose proof (ok_capacity _ (run_session_ok py_str evs _
                               (registry_ok_new sid mx now))) as H.
  now rewrite run_session_max_tools in H.
Qed.

(** X2. Every pending initialization handle of a session belongs to a tool
    that is registered. *)
Theorem session_handles_are_registered (sid : string) (mx : Z) (now : datetime)
    (evs : list SessionEvent) (tid : string) :
  is_Some (_initialization_tasks
             (run_session py_str (new_manager sid mx now) evs) !! tid) ->
  is_Some (_tool_map (run_session py_str (new_manager sid mx now) evs) !! tid).
Proof.
  apply (ok_handles _ (run_session_ok py_str evs _ (registry_ok_new sid mx now))).
Qed.

(** X3. Every entry of a session keeps the default cap of 50 and never
    holds more than 50 history records, whatever was executed and however
    often it failed. *)
Theorem session_histories_bounded (sid : string) (mx : Z) (now : datetime)
    (evs : list SessionEvent) (tid : string) (e : ToolEntryDTO) :
  _tool_map (run_session py_str (new_manager sid mx now) evs) !! tid = Some e ->
  max_history_size e = 50 /\ (length (execution_history e) <= 50)%nat.
Proof.
  intros Hget.
  destruct (ok_entries _ (run_session_ok py_str evs _
                            (registry_ok_new sid mx now)) tid e Hget).
  now split.
Qed.


(** X5. The statistics of every entry of a session are consistent: an
    entry that never executed has total and average time 0 and no
    [last_executed]; one that executed has
    [average_execution_time = total_execution_time / execution_count];
    the two counts are never negative, and [last_error] is set only after
    an error was counted. *)
Theorem session_entry_statistics (sid : string) (mx : Z) (now : datetime)
    (evs : list SessionEvent) (tid : string) (e : ToolEntryDTO) :
  _tool_map (run_session py_str (new_manager sid mx now) evs) !! tid = Some e ->
  0 <= execution_count e /\ 0 <= error_count e /\
  (execution_count e = 0 ->
   total_execution_time e = 0%Q /\ average_execution_time e = 0%Q /\
   last_executed e = None) /\
  (0 < execution_count e ->
   average_execution_time e
   = (total_execution_time e / inject_Z (execution_count e))%Q) /\
  (error_count e = 0 -> last_error e = None).
Proof.
  intros Hget.
  destruct (ok_entries _ (run_session_ok py_str evs _
                            (registry_ok_new sid mx now)) tid e Hget).
  split; [assumption|]. split; [assumption|]. split; [assumption|].
  split; assumption.
Qed.

(** X6. Every entry of a session is filed under its own [tool_id], which
    is not empty, and has a non-empty name and the category ["tool"]. *)
Theorem session_entry_identity (sid : string) (mx : Z) (now : datetime)
    (evs : list SessionEvent) (tid : string) (e : ToolEntryDTO) :
  _tool_map (run_session py_str (new_manager sid mx now) evs) !! tid = Some e ->
  tool_id e = tid /\ tid <> "" /\ name e <> "" /\ category e = "tool".
Proof.
  intros Hget.
  destruct (ok_entries _ (run_session_ok py_str evs _
                            (registry_ok_new sid mx now)) tid e Hget).
  now repeat split.
Qed.

End SessionSettings.

Lemma session_handles_are_registered_witness :
  is_Some (_tool_map session_registry !! "slow").
Proof.
  apply (session_handles_are_registered no_str "session-1" 2 epoch
           sample_session "slow").
  vm_compute. eauto.
Defined.

Lemma session_histories_bounded_witness :
  max_history_size session_entry = 50 /\
  (length (execution_history session_entry) <= 50)%nat.
Proof.
  apply (session_histories_bounded no_str "session-1" 2 epoch sample_session
           "cost_estimator").
  reflexivity.
Defined.


Lemma session_entry_statistics_witness :
  0 <= execution_count session_entry /\ 0 <= error_count session_entry /\
  (execution_count session_entry = 0 ->
   total_execution_time session_entry = 0%Q /\
   average_execution_time session_entry = 0%Q /\
   last_executed session_entry = None) /\
  (0 < execution_count session_entry ->
   average_execution_time session_entry
   = (total_execution_time session_entry
      / inject_Z (execution_count session_entry))%Q) /\
  (error_count session_entry = 0 -> last_error session_entry = None).
Proof.
  apply (session_entry_statistics no_str "session-1" 2 epoch sample_session
           "cost_estimator").
  reflexivity.
Defined.

Lemma session_entry_identity_witness :
  tool_id session_entry = "cost_estimator" /\ "cost_estimator" <> "" /\
  name session_entry <> "" /\ category session_entry = "tool".
Proof.
  apply (session_entry_identity no_str "session-1" 2 epoch sample_session
           "cost_estimator").
  reflexivity.
Defined.

(** ** More on executing one tool *)

Section ExecuteToolEdges.

Variable py_str : Dict -> string.

(** X7. [execute_tool] on an id that is not registered, or whose entry is
    EXECUTING, ERROR or DISABLED, does not call the tool: it returns the
    failure result naming the id ("not found", or "not ready" with the
    status) and leaves the registry and the context as they were. *)
Theorem execute_tool_refuses (self : ToolMapManager) (tid : string)
    (context : Dict) (clk : Clock) :
  _tool_map self !! tid = None \/
  (exists e, _tool_map self !! tid = Some e /\
             (status e = EXECUTING \/ status e = ERROR \/ status e = DISABLED)) ->
  execute_tool py_str self tid context clk
  = (failure_result
       match _tool_map self !! tid with
       | None => "Tool " ++ tid ++ " not found"
       | Some e => "Tool " ++ tid ++ " is not ready (status: "
                   ++ status_value (status e) ++ ")"
       end tid,
     self, context).
Proof.
  intros [Hnone|(e & Hget & Hstatus)]; unfold execute_tool.
  - now rewrite Hnone.
  - rewrite Hget.
    assert (status_eqb (status e) UNINITIALIZED = false) as ->
      by (destruct Hstatus as [->|[->| ->]]; reflexivity).
    rewrite Hget. simpl default. unfold is_ready.
    assert (status_eqb (status e) READY = false) as ->
      by (destruct Hstatus as [->|[->| ->]]; reflexivity).
    reflexivity.
Qed.

(** X8. [execute_tool] on an UNINITIALIZED entry first runs the
    initialization. When the tool has no [initialize] or [initialize]
    returns [True], the entry is stamped with [initialized_at], the tool
    runs, and the call ends as on a READY entry: the tool's result comes
    back, the entry is READY with one more execution, and no handle stays
    pending for the id. *)
Theorem execute_tool_lazy_init_success (self : ToolMapManager) (tid : string)
    (entry : ToolEntryDTO) (context : Dict) (clk : Clock)
    (result context' : Dict) (dt : Q) :
  _tool_map self !! tid = Some entry ->
  status entry = UNINITIALIZED ->
  tool_initialize (tool_instance entry) = None \/
  tool_initialize (tool_instance entry) = Some (InitReturns true) ->
  tool_execute (tool_instance entry) context = Returns result context' dt ->
  exists self' entry',
    execute_tool py_str self tid context clk = (result, self', context') /\
    _tool_map self' !! tid = Some entry' /\
    status entry' = READY /\
    initialized_at entry' = Some (now_init clk) /\
    execution_count entry' = execution_count entry + 1 /\
    _initialization_tasks self' !! tid = None /\
    total_executions self' = total_executions self + 1.
Proof.
  intros Hget Hstatus Hinit Hexec.
  unfold execute_tool. rewrite Hget, Hstatus. simpl status_eqb. cbv iota.
  unfold _ensure_tool_initialized. rewrite Hget, Hstatus. simpl status_eqb.
  cbv iota. unfold _initialize_tool. rewrite Hget.
  assert (match tool_initialize (tool_instance entry) with
          | Some (InitReturns true) | None =>
              update_entry self tid
                (fun e => set_initialized_at (set_status e READY) (now_init clk))
          | Some (InitReturns false) =>
              update_entry self tid (fun e => set_status e ERROR)
          | Some (InitRaises msg) =>
              update_entry self tid
                (fun e => record_error (set_status e ERROR) msg (now_init clk))
          end
          = update_entry self tid
              (fun e => set_initialized_at (set_status e READY) (now_init clk)))
    as -> by (destruct Hinit as [-> | ->]; reflexivity).
  reg_simpl. rewrite lookup_alter_eq, Hget. simpl default. simpl negb.
  cbv iota. simpl tool_instance. rewrite Hexec.
  eexists _, _. split; [reflexivity|]. reg_simpl.
  split; [rewrite !lookup_alter_eq, Hget; reflexivity|].
  destruct (add_to_execution_history_frame
              (update_execution_stats
                 (set_status
                    (set_initialized_at (set_status entry READY) (now_init clk))
                    EXECUTING) dt (now_stats clk))
              (history_record py_str context' result dt) (now_history clk))
    as (_ & _ & Hcount & _).
  rewrite (add_to_execution_history_shape
             (update_execution_stats
                (set_status
                   (set_initialized_at (set_status entry READY) (now_init clk))
                   EXECUTING) dt (now_stats clk))).
  simpl. repeat split. apply lookup_delete_eq.
Qed.

(** X9. When the [initialize] of an UNINITIALIZED tool returns [False] or
    raises, [execute_tool] does not call [execute]: it returns the
    "not ready (status: error)" failure, the entry is left in ERROR with
    its execution count unchanged and no pending handle, and the context
    is untouched. A raised exception is counted and kept as
    [last_error]; a returned [False] is not. *)
Theorem execute_tool_lazy_init_failure (self : ToolMapManager) (tid : string)
    (entry : ToolEntryDTO) (context : Dict) (clk : Clock)
    (outcome : InitOutcome) :
  _tool_map self !! tid = Some entry ->
  status entry = UNINITIALIZED ->
  tool_initialize (tool_instance entry) = Some outcome ->
  outcome <> InitReturns true ->
  exists self' entry',
    execute_tool py_str self tid context clk
    = (failure_result ("Tool " ++ tid ++ " is not ready (status: error)") tid,
       self', context) /\
    _tool_map self' !! tid = Some entry' /\
    status entry' = ERROR /\
    execution_count entry' = execution_count entry /\
    _initialization_tasks self' !! tid = None /\
    total_executions self' = total_executions self /\
    match outcome with
    | InitReturns _ =>
        error_count entry' = error_count entry /\
        last_error entry' = last_error entry
    | InitRaises msg =>
        error_count entry' = error_count entry + 1 /\
        last_error entry' = Some msg
    end.
Proof.
  intros Hget Hstatus Hinit Hbad.
  unfold execute_tool. rewrite Hget, Hstatus. simpl status_eqb. cbv iota.
  unfold _ensure_tool_initialized. rewrite Hget, Hstatus. simpl status_eqb.
  cbv iota. unfold _initialize_tool. rewrite Hget, Hinit.
  destruct outcome as [[]|msg]; [congruence| |].
  - reg_simpl. rewrite lookup_alter_eq, Hget. simpl default. simpl negb.
    cbv iota. eexists _, _. split; [reflexivity|]. reg_simpl.
    split; [rewrite lookup_alter_eq, Hget; reflexivity|].
    simpl. repeat split. apply lookup_delete_eq.
  - reg_simpl. rewrite lookup_alter_eq, Hget. simpl default.
    unfold is_ready, record_error.
    match goal with
    | |- context [add_to_execution_history ?e0 ?r ?t] =>
        rewrite (add_to_execution_history_shape e0 r t)
    end.
    simpl negb. cbv iota. simpl status. eexists _, _.
    split; [reflexivity|]. reg_simpl.
    split; [rewrite lookup_alter_eq, Hget; reflexivity|].
    unfold record_error.
    match goal with
    | |- context [add_to_execution_history ?e0 ?r ?t] =>
        rewrite (add_to_execution_history_shape e0 r t)
    end.
    simpl. repeat split. apply lookup_delete_eq.
Qed.

End ExecuteToolEdges.

(** ** What one execution leaves alone *)

Lemma same_outside_refl (tid : string) (a : ToolMapManager) : same_outside tid a a.
Proof. now constructor. Qed.

Lemma same_outside_trans (tid : string) (a b c : ToolMapManager) :
  same_outside tid a b -> same_outside tid b c -> same_outside tid a c.
Proof.
  intros [] []. constructor; try congruence.
  - intros t Ht. now rewrite same_entries1, same_entries0.
  - intros t Ht. now rewrite same_handles1, same_handles0.
  - now rewrite same_registered1.
Qed.

Lemma update_entry_same_outside (self : ToolMapManager) (tid : string)
    (f : ToolEntryDTO -> ToolEntryDTO) :
  same_outside tid self (update_entry self tid f).
Proof.
  constructor; try reflexivity; reg_simpl.
  - intros t Ht. now apply lookup_alter_ne.
  - apply lookup_alter_is_Some.
  - unfold count. reg_simpl. now rewrite size_alter.
Qed.

Lemma drop_handle_same_outside (self : ToolMapManager) (tid : string) :
  same_outside tid self
    (with_tasks self (delete tid (_initialization_tasks self))).
Proof.
  constructor; try reflexivity; reg_simpl.
  intros t Ht. now apply lookup_delete_ne.
Qed.

Lemma incr_total_executions_same_outside (self : ToolMapManager) (tid : string) :
  same_outside tid self (incr_total_executions self).
Proof. now constructor. Qed.

Lemma _initialize_tool_same_outside (self : ToolMapManager) (tid : string)
    (now : datetime) :
  same_outside tid self (_initialize_tool self tid now).
Proof.
  unfold _initialize_tool.
  eapply same_outside_trans; [|apply drop_handle_same_outside].
  destruct (_tool_map self !! tid) as [entry|]; [|apply same_outside_refl].
  destruct (tool_initialize (tool_instance entry)) as [[[]|msg]|];
    apply update_entry_same_outside.
Qed.

Section ExecuteToolFrame.

Variable py_str : Dict -> string.

(** X10. One [execute_tool] touches at most the entry and the pending
    handle of the tool it was asked for, and [total_executions]: every
    other entry and handle, the set of registered ids, [count()],
    [total_added], [total_removed] and the settings stay as they were. *)
Theorem execute_tool_leaves_rest_alone (self : ToolMapManager) (tid : string)
    (context : Dict) (clk : Clock) :
  same_outside tid self (execute_tool py_str self tid context clk).1.2.
Proof.
  unfold execute_tool.
  destruct (_tool_map self !! tid) as [entry0|] eqn:Hget;
    [|apply same_outside_refl].
  set (self1 := if status_eqb (status entry0) UNINITIALIZED
                then _ensure_tool_initialized self tid (now_init clk)
                else self).
  assert (same_outside tid self self1) as H1.
  { subst self1. destruct (status_eqb _ _); [|apply same_outside_refl].
    unfold _ensure_tool_initialized. rewrite Hget.
    destruct (status_eqb _ _);
      [apply _initialize_tool_same_outside | apply same_outside_refl]. }
  destruct (negb _); [exact H1|].
  destruct (tool_execute _ context) as [result context' dt|msg context'];
    cbn [fst snd].
  - repeat (first
      [ eapply same_outside_trans; [|apply update_entry_same_outside]
      | eapply same_outside_trans; [|apply incr_total_executions_same_outside] ]).
    exact H1.
  - repeat (eapply same_outside_trans; [|apply update_entry_same_outside]).
    exact H1.
Qed.

End ExecuteToolFrame.

(** ** The record of an execution *)

Lemma take_length_le (n : nat) (s : string) : (String.length (Str.take n s) <= n)%nat.
Proof.
  revert s. induction n as [|n IH]; intros [|c s]; simpl; try lia.
  specialize (IH s). lia.
Qed.

Lemma take_short (n : nat) (s : string) :
  (String.length s <= n)%nat -> Str.take n s = s.
Proof.
  revert s. induction n as [|n IH]; intros [|c s] H; simpl in *;
    try reflexivity; try lia.
  rewrite IH by lia. reflexivity.
Qed.

Lemma starts_with_single (a b : ascii) (s : string) :
  Str.starts_with (String a EmptyString) (String b s) = Ascii.eqb a b.
Proof. simpl. now destruct (Ascii.eqb a b). Qed.

Lemma no_newline_after_replace (n : nat) (s : string) :
  Str.str_in newline (Str.take n (Str.newlines_to_spaces s)) = false.
Proof.
  revert n. induction s as [|c s IH]; intros [|n]; try reflexivity.
  change (Str.take (S n) (Str.newlines_to_spaces (String c s)))
    with (String (if Ascii.eqb c "010" then " "%char else c)
            (Str.take n (Str.newlines_to_spaces s))).
  rewrite StrFacts.str_in_unfold, IH, orb_false_r.
  unfold newline. rewrite starts_with_single.
  destruct (Ascii.eqb c "010") eqn:Hc.
  - reflexivity.
  - now rewrite Ascii.eqb_sym.
Qed.

Lemma most_recent_last {A : Type} (m : nat) (l : list A) (x : A) :
  (1 <= m)%nat -> last (most_recent m (l ++ [x])) = Some x.
Proof.
  intros Hm. unfold most_recent. rewrite length_app. simpl.
  rewrite drop_app_le by lia. apply last_snoc.
Qed.

Section ExecutionRecord.

Variable py_str : Dict -> string.

(** X11. A successful execution files one record at the end of the
    entry's history: it holds the query of the context, the tool's
    [success] value, the duration, a timestamp, and the rendering of the
    result cut to at most 200 characters with no line break in it; the
    entry's [last_executed] is set. *)
Theorem execute_tool_files_record (self : ToolMapManager) (tid : string)
    (entry : ToolEntryDTO) (context : Dict) (clk : Clock)
    (result context' : Dict) (dt : Q) :
  _tool_map self !! tid = Some entry ->
  status entry = READY ->
  1 <= max_history_size entry ->
  tool_execute (tool_instance entry) context = Returns result context' dt ->
  exists entry' record text,
    _tool_map (execute_tool py_str self tid context clk).1.2 !! tid = Some entry' /\
    last (execution_history entry') = Some record /\
    last_executed entry' = Some (now_stats clk) /\
    record !! "query" = Some (dict_get context' "query" (VStr "")) /\
    record !! "success" = Some (dict_get result "success" (VBool false)) /\
    record !! "execution_time" = Some (VFloat dt) /\
    record !! "timestamp" = Some (VStr (isoformat (now_history clk))) /\
    record !! "result" = Some (VStr text) /\
    (String.length text <= 200)%nat /\
    Str.str_in newline text = false /\
    ((String.length (py_str result) <= 200)%nat ->
     Str.str_in newline (py_str result) = false -> text = py_str result).
Proof.
  intros Hget Hready Hcap Hexec.
  unfold execute_tool. rewrite Hget, Hready. simpl status_eqb. cbv iota.
  rewrite Hget. simpl default. unfold is_ready. rewrite Hready.
  simpl negb. cbv iota. rewrite Hexec. cbn [fst snd]. reg_simpl.
  rewrite !lookup_alter_eq, Hget. simpl fmap.
  eexists _, _, _. split; [reflexivity|].
  split.
  { simpl execution_history.
    rewrite add_to_execution_history_history by exact Hcap.
    apply most_recent_last. simpl. lia. }
  rewrite add_to_execution_history_shape. simpl last_executed.
  split; [reflexivity|].
  unfold stamped, history_record.
  rewrite !lookup_insert_ne, lookup_empty by discriminate.
  split; [now rewrite lookup_insert_ne, lookup_insert_eq by discriminate|].
  split; [now rewrite !lookup_insert_ne, lookup_insert_eq by discriminate|].
  split; [now rewrite !lookup_insert_ne, lookup_insert_eq by discriminate|].
  split; [now rewrite lookup_insert_eq|].
  split; [now rewrite !lookup_insert_ne, lookup_insert_eq by discriminate|].
  split; [apply take_length_le|].
  split; [apply no_newline_after_replace|].
  intros Hshort Hline.
  assert (Str.newlines_to_spaces (py_str result) = py_str result) as ->.
  { clear Hshort. induction (py_str result) as [|c s IH]; [reflexivity|].
    rewrite StrFacts.str_in_unfold in Hline.
    apply orb_false_iff in Hline as [Hhead Htail].
    unfold newline in Hhead. rewrite starts_with_single in Hhead.
    change (Str.newlines_to_spaces (String c s))
      with (String (if Ascii.eqb c "010" then " "%char else c)
              (Str.newlines_to_spaces s)).
    rewrite Ascii.eqb_sym, Hhead. now rewrite IH. }
  now apply take_short.
Qed.

End ExecutionRecord.

(** ** Registering and removing *)

(** X12. [remove_tool] answers whether the id was registered. Afterwards
    the id is not registered; when it was, its pending handle is gone
    too. Every other entry and handle is as before. *)
Theorem remove_tool_effect (self : ToolMapManager) (tid : string) :
  (remove_tool self tid).1 = bool_decide (is_Some (_tool_map self !! tid)) /\
  get_tool (remove_tool self tid).2 tid = None /\
  (is_Some (_tool_map self !! tid) ->
   _initialization_tasks (remove_tool self tid).2 !! tid = None) /\
  (forall t, t <> tid ->
     get_tool (remove_tool self tid).2 t = get_tool self t /\
     _initialization_tasks (remove_tool self tid).2 !! t
     = _initialization_tasks self !! t).
Proof.
  unfold remove_tool, get_tool.
  destruct (_tool_map self !! tid) as [entry|] eqn:Hget; reg_simpl.
  - split; [reflexivity|]. split; [apply lookup_delete_eq|].
    split; [intros _; apply lookup_delete_eq|].
    intros t Ht. split; now apply lookup_delete_ne.
  - split; [reflexivity|]. split; [exact Hget|].
    split; [intros [e He]; discriminate|]. now intros t Ht.
Qed.

(** X13. Removing a tool right after it was added gives the map back as
    it was before the addition; both counters have gone up by one. *)
Theorem add_then_remove_restores_map self tid inst nm desc hn llm sp caps kws md
    now self' :
  add_tool self tid inst nm desc hn llm sp caps kws md now = (Ret true, self') ->
  (remove_tool self' tid).1 = true /\
  _tool_map (remove_tool self' tid).2 = _tool_map self /\
  _initialization_tasks (remove_tool self' tid).2
  = delete tid (_initialization_tasks self) /\
  count (remove_tool self' tid).2 = count self /\
  total_added (remove_tool self' tid).2 = total_added self + 1 /\
  total_removed (remove_tool self' tid).2 = total_removed self + 1.
Proof.
  unfold add_tool.
  destruct (_ >=? _)%Z; [discriminate|].
  destruct (decide _) as [|Hfresh]; [discriminate|].
  apply eq_None_not_Some in Hfresh.
  unfold new_entry. destruct (String.eqb tid ""); [discriminate|].
  destruct (tool_initialize inst); intros [= <-]; unfold remove_tool; reg_simpl.
  - rewrite lookup_insert_eq. reg_simpl. unfold count. reg_simpl.
    rewrite !delete_insert_eq, (delete_id (_tool_map self)) by exact Hfresh.
    repeat split.
  - rewrite alter_insert_eq, lookup_insert_eq. reg_simpl. unfold count. reg_simpl.
    rewrite delete_insert_eq, (delete_id (_tool_map self)) by exact Hfresh.
    repeat split.
Qed.

(** X14. After [add_tool] answered [True], [get_tool] finds the new entry:
    it carries the arguments given (with the id as name when no name was
    given and empty lists and maps for what was left out), zeroed
    statistics and an empty history. A tool without [initialize] is READY
    at once with [initialized_at] set and no pending handle; a tool with
    [initialize] is UNINITIALIZED with a pending, not cancelled, handle.
    The entries of the other ids are as before. *)
Theorem add_then_get self tid inst nm desc hn llm sp caps kws md now self' :
  add_tool self tid inst nm desc hn llm sp caps kws md now = (Ret true, self') ->
  (exists e,
     get_tool self' tid = Some e /\
     tool_id e = tid /\ tool_instance e = inst /\
     name e = (if String.eqb nm "" then tid else nm) /\
     description e = desc /\ handler_name e = hn /\ system_prompt e = sp /\
     llm_config e = dict_or_empty llm /\ metadata e = dict_or_empty md /\
     capabilities e = list_or_empty caps /\ keywords e = list_or_empty kws /\
     execution_count e = 0 /\ error_count e = 0 /\ execution_history e = [] /\
     last_error e = None /\
     match tool_initialize inst with
     | None =>
         status e = READY /\ initialized_at e = Some now /\
         _initialization_tasks self' !! tid = _initialization_tasks self !! tid
     | Some _ =>
         status e = UNINITIALIZED /\ initialized_at e = None /\
         _initialization_tasks self' !! tid = Some {| cancel_requested := false |}
     end) /\
  (forall t, t <> tid -> get_tool self' t = get_tool self t).
Proof.
  assert (forall s, str_or s "" = s) as Hor.
  { intros s. unfold str_or. destruct (String.eqb s "") eqn:E; [|reflexivity].
    now apply String.eqb_eq in E. }
  unfold add_tool, get_tool.
  destruct (_ >=? _)%Z; [discriminate|].
  destruct (decide _) as [|Hfresh]; [discriminate|].
  unfold new_entry. destruct (String.eqb tid ""); [discriminate|].
  destruct (tool_initialize inst); intros [= <-]; reg_simpl.
  - split.
    + eexists. split; [apply lookup_insert_eq|]. simpl. rewrite !Hor.
      repeat split. apply lookup_insert_eq.
    + intros t Ht. now apply lookup_insert_ne.
  - rewrite alter_insert_eq. split.
    + eexists. split; [apply lookup_insert_eq|]. simpl. rewrite !Hor.
      repeat split.
    + intros t Ht. now apply lookup_insert_ne.
Qed.

(** X15. [add_tool] with the empty string as id, on a registry with room,
    does not answer [False]: the entry constructor raises [ValueError] and
    the registry stays as it was. *)
Theorem add_tool_empty_id_raises self inst nm desc hn llm sp caps kws md now :
  count self < max_tools self ->
  _tool_map self !! "" = None ->
  add_tool self "" inst nm desc hn llm sp caps kws md now
  = (Exc "ValueError" "tool_id is required", self).
Proof.
  intros Hroom Hfresh. unfold add_tool.
  destruct (Z.geb_spec (count self) (max_tools self)); [lia|].
  destruct (decide _) as [[e He]|_]; [congruence|]. reflexivity.
Qed.

(** ** Cleaning up *)

Lemma remove_all_effect (ids : list string) :
  forall self,
    NoDup ids ->
    (forall t, t ∈ ids -> is_Some (_tool_map self !! t)) ->
    let self' := foldl (fun s tid => (remove_tool s tid).2) self ids in
    (forall t, _tool_map self' !! t
               = if decide (t ∈ ids) then None else _tool_map self !! t) /\
    (forall t, _initialization_tasks self' !! t
               = if decide (t ∈ ids) then None
                 else _initialization_tasks self !! t) /\
    total_removed self' = total_removed self + Z.of_nat (length ids) /\
    total_added self' = total_added self.
Proof.
  induction ids as [|tid ids IH]; intros self Hnodup Hin.
  - simpl. repeat split; try lia; intros t;
      destruct (decide (t ∈ [])) as [H|_]; try reflexivity;
      now apply elem_of_nil in H.
  - apply NoDup_cons in Hnodup as [Hnotin Hnodup].
    destruct (Hin tid (list_elem_of_here _ _)) as [entry Hget].
    assert ((remove_tool self tid).2
            = incr_total_removed
                (with_tool_map
                   (with_tasks self (delete tid (_initialization_tasks self)))
                   (delete tid (_tool_map self)))) as Hstep.
    { unfold remove_tool. now rewrite Hget. }
    cbn [foldl]. cbv zeta. rewrite Hstep.
    destruct (IH (incr_total_removed
                    (with_tool_map
                       (with_tasks self (delete tid (_initialization_tasks self)))
                       (delete tid (_tool_map self)))) Hnodup)
      as (Hmap & Htasks & Hremoved & Hadded).
    { intros t Ht. reg_simpl. rewrite lookup_delete_ne.
      - apply Hin. now apply list_elem_of_further.
      - intros ->. contradiction. }
    reg_simpl. split; [|split; [|split]].
    + intros t. rewrite Hmap. reg_simpl.
      destruct (decide (t ∈ ids)) as [Ht|Ht].
      * rewrite decide_True by (now apply list_elem_of_further). reflexivity.
      * destruct (decide (t = tid)) as [->|Hne].
        -- rewrite decide_True by apply list_elem_of_here. apply lookup_delete_eq.
        -- rewrite decide_False by (rewrite elem_of_cons; tauto).
           now apply lookup_delete_ne.
    + intros t. rewrite Htasks. reg_simpl.
      destruct (decide (t ∈ ids)) as [Ht|Ht].
      * rewrite decide_True by (now apply list_elem_of_further). reflexivity.
      * destruct (decide (t = tid)) as [->|Hne].
        -- rewrite decide_True by apply list_elem_of_here. apply lookup_delete_eq.
        -- rewrite decide_False by (rewrite elem_of_cons; tauto).
           now apply lookup_delete_ne.
    + rewrite Hremoved. reg_simpl. simpl length. lia.
    + rewrite Hadded. reflexivity.
Qed.

Lemma map_fst_keys (m : gmap string ToolEntryDTO) :
  map fst (map_to_list m) = (map_to_list m).*1.
Proof. induction (map_to_list m) as [|p l IH]; [reflexivity|]. simpl. now f_equal. Qed.

Lemma key_listed (m : gmap string ToolEntryDTO) (t : string) :
  t ∈ map fst (map_to_list m) <-> is_Some (m !! t).
Proof.
  rewrite map_fst_keys, list_elem_of_fmap. split.
  - intros ([k e] & -> & Hin). apply elem_of_map_to_list in Hin. simpl. eauto.
  - intros [e He]. exists (t, e). split; [reflexivity|].
    now apply elem_of_map_to_list.
Qed.

(** X16. [cleanup] empties the registry: no entry is left, [count()] is 0,
    every removal was counted in [total_removed], [total_added] is as
    before, no handle of a registered tool is left, and a handle that
    belonged to no registered tool stays, marked as cancelled. *)
Theorem cleanup_empties_registry (self : ToolMapManager) :
  _tool_map (cleanup self) = ∅ /\
  count (cleanup self) = 0 /\
  total_removed (cleanup self) = total_removed self + count self /\
  total_added (cleanup self) = total_added self /\
  (forall t, _initialization_tasks (cleanup self) !! t
             = match _tool_map self !! t with
               | Some _ => None
               | None => (fun _ => {| cancel_requested := true |})
                           <$> _initialization_tasks self !! t
               end).
Proof.
  unfold cleanup.
  destruct (remove_all_effect (map fst (map_to_list (_tool_map self)))
              (with_tasks self
                 ((fun _ => {| cancel_requested := true |})
                    <$> _initialization_tasks self)))
    as (Hmap & Htasks & Hremoved & Hadded).
  { rewrite map_fst_keys. apply NoDup_fst_map_to_list. }
  { intros t Ht. now apply key_listed in Ht. }
  reg_simpl.
  assert (_tool_map
            (foldl (fun s tid => (remove_tool s tid).2)
               (with_tasks self
                  ((fun _ => {| cancel_requested := true |})
                     <$> _initialization_tasks self))
               (map fst (map_to_list (_tool_map self)))) = ∅) as Hempty.
  { apply map_eq. intros t. rewrite Hmap, lookup_empty.
    destruct (decide _) as [Hin|Hout]; [reflexivity|].
    destruct (_tool_map self !! t) eqn:Hget; [|reflexivity].
    exfalso. apply Hout, key_listed. eauto. }
  split; [exact Hempty|].
  split; [unfold count; rewrite Hempty, map_size_empty; reflexivity|].
  split.
  { rewrite Hremoved. unfold count.
    rewrite <- length_map_to_list, length_map. reflexivity. }
  split; [exact Hadded|].
  intros t. rewrite Htasks, lookup_fmap.
  destruct (decide _) as [Hin|Hout].
  - apply key_listed in Hin as [e ->]. reflexivity.
  - destruct (_tool_map self !! t) eqn:Hget; [|reflexivity].
    exfalso. apply Hout, key_listed. eauto.
Qed.

(** ** Finding tools *)

Lemma insert_match_perm (x : Match) (l : list Match) :
  Permutation (insert_match x l) (x :: l).
Proof.
  induction l as [|y l IH]; simpl; [reflexivity|].
  destruct (Qlt_le_dec _ _); [|reflexivity].
  rewrite IH. apply perm_swap.
Qed.

Lemma sort_matches_perm (l : list Match) : Permutation (sort_matches l) l.
Proof.
  induction l as [|x l IH]; simpl; [reflexivity|].
  rewrite insert_match_perm. now constructor.
Qed.

Lemma insert_match_hd (x y : Match) (l : list Match) :
  score_ge y x -> HdRel score_ge y l -> HdRel score_ge y (insert_match x l).
Proof.
  intros Hyx Hhd. destruct l as [|z l]; simpl; [now constructor|].
  destruct (Qlt_le_dec _ _); constructor; [|exact Hyx].
  now inversion Hhd.
Qed.

Lemma insert_match_sorted (x : Match) (l : list Match) :
  Sorted score_ge l -> Sorted score_ge (insert_match x l).
Proof.
  induction l as [|y l IH]; intros Hsorted; simpl.
  - repeat constructor.
  - inversion Hsorted as [|? ? Htail Hhd]; subst.
    destruct (Qlt_le_dec (match_score x) (match_score y)) as [Hlt|Hle].
    + constructor; [now apply IH|].
      apply insert_match_hd; [|exact Hhd]. unfold score_ge. lra.
    + constructor; [exact Hsorted|]. constructor. exact Hle.
Qed.

Lemma sort_matches_sorted (l : list Match) : Sorted score_ge (sort_matches l).
Proof.
  induction l as [|x l IH]; simpl; [constructor|].
  now apply insert_match_sorted.
Qed.

Lemma insert_match_of_score (q : Q) (x : Match) (l : list Match) :
  of_score q (insert_match x l) = of_score q (x :: l).
Proof.
  induction l as [|y l IH]; [reflexivity|].
  simpl insert_match.
  destruct (Qlt_le_dec (match_score x) (match_score y)) as [Hlt|Hle];
    [|reflexivity].
  unfold of_score in *. simpl in *. rewrite IH.
  destruct (Qeq_bool (match_score x) q) eqn:Hx; [|reflexivity].
  destruct (Qeq_bool (match_score y) q) eqn:Hy; [|reflexivity].
  apply Qeq_bool_iff in Hx, Hy. exfalso. rewrite Hx, Hy in Hlt.
  now apply Qlt_irrefl in Hlt.
Qed.

Lemma sort_matches_of_score (q : Q) (l : list Match) :
  of_score q (sort_matches l) = of_score q l.
Proof.
  induction l as [|x l IH]; [reflexivity|].
  simpl sort_matches. rewrite insert_match_of_score.
  unfold of_score in *. simpl. now rewrite IH.
Qed.

Lemma collect_matches_spec (items : list (string * ToolEntryDTO))
    (query : string) (threshold : Q) (m : Match) :
  m ∈ collect_matches items query threshold <->
  (match_id m, match_entry m) ∈ items /\
  is_available (match_entry m) = true /\
  match_score m = matches_query (match_entry m) query /\
  (threshold <= match_score m)%Q.
Proof.
  induction items as [|[tid e] items IH]; simpl.
  - rewrite !elem_of_nil. tauto.
  - rewrite elem_of_cons.
    destruct (is_available e) eqn:Hav; simpl.
    + destruct (Qle_bool threshold (matches_query e query)) eqn:Hth.
      * rewrite elem_of_cons, IH. apply Qle_bool_iff in Hth. split.
        -- intros [->|H]; [simpl; tauto | tauto].
        -- intros ([Heq|Hin] & Ha & Hs & Ht); [|tauto].
           left. injection Heq as <- <-. destruct m. simpl in *. now subst.
      * rewrite IH. split; [tauto|].
        intros ([Heq|Hin] & Ha & Hs & Ht); [|tauto].
        injection Heq as <- <-. rewrite Hs in Ht.
        apply Qle_bool_iff in Ht. congruence.
    + rewrite IH. split; [tauto|].
      intros ([Heq|Hin] & Ha & Hs & Ht); [|tauto].
      injection Heq as <- <-. congruence.
Qed.

(** X17. The matches [find_matching_tools] returns for the items it
    walks over are exactly the tools that are READY or UNINITIALIZED and
    whose score for the query reaches the threshold, each with its score;
    they are ordered by descending score, and matches of equal score keep
    the order in which the walk met them. For a registry these are the
    registered tools with that status and score. *)
Theorem find_matching_sound_complete_sorted (query : string) (threshold : Q) :
  (forall items m,
     m ∈ find_matching_in items query threshold <->
     (match_id m, match_entry m) ∈ items /\
     (status (match_entry m) = READY \/ status (match_entry m) = UNINITIALIZED) /\
     match_score m = matches_query (match_entry m) query /\
     (threshold <= match_score m)%Q) /\
  (forall items, Sorted score_ge (find_matching_in items query threshold)) /\
  (forall items q,
     of_score q (find_matching_in items query threshold)
     = of_score q (collect_matches items query threshold)) /\
  (forall self m,
     m ∈ find_matching_tools self query threshold <->
     _tool_map self !! match_id m = Some (match_entry m) /\
     (status (match_entry m) = READY \/ status (match_entry m) = UNINITIALIZED) /\
     match_score m = matches_query (match_entry m) query /\
     (threshold <= match_score m)%Q).
Proof.
  assert (forall items m,
     m ∈ find_matching_in items query threshold <->
     (match_id m, match_entry m) ∈ items /\
     (status (match_entry m) = READY \/ status (match_entry m) = UNINITIALIZED) /\
     match_score m = matches_query (match_entry m) query /\
     (threshold <= match_score m)%Q) as Hmem.
  { intros items m. unfold find_matching_in.
    rewrite (sort_matches_perm (collect_matches items query threshold)).
    rewrite collect_matches_spec. unfold is_available.
    destruct (status (match_entry m)); simpl; intuition discriminate. }
  split; [exact Hmem|]. split; [|split].
  - intros items. apply sort_matches_sorted.
  - intros items q. apply sort_matches_of_score.
  - intros self m. unfold find_matching_tools.
    now rewrite Hmem, elem_of_map_to_list.
Qed.

(** ** More on the history and on errors *)

(** X18. [get_recent_executions(n)] with [n >= 1] returns the last [n]
    records of the history, oldest first, or the whole history when it is
    shorter. With [n = 0] it does not return an empty list: the slice
    [history[-0:]] is the whole history. *)
Theorem get_recent_executions_slices (e : ToolEntryDTO) :
  (forall n, 1 <= n ->
     get_recent_executions e n
     = most_recent (Z.to_nat n) (execution_history e) /\
     length (get_recent_executions e n)
     = Nat.min (Z.to_nat n) (length (execution_history e)) /\
     exists older, execution_history e = (older ++ get_recent_executions e n)%list) /\
  get_recent_executions e 0 = execution_history e.
Proof.
  unfold get_recent_executions, slice_from_neg, most_recent. split.
  - intros n Hn. destruct (Z.ltb_spec 0 n); [|lia].
    destruct (execution_history e) as [|r h] eqn:Hh.
    + simpl. split; [now destruct (Z.to_nat n)|].
      split; [now rewrite Nat.min_0_r|]. now exists [].
    + rewrite <- Hh. split; [reflexivity|].
      split; [rewrite length_drop; lia|].
      exists (take (length (execution_history e) - Z.to_nat n)
                (execution_history e)).
      now rewrite take_drop.
  - destruct (execution_history e); reflexivity.
Qed.

(** X19. On an entry whose cap is at least 1 and whose history is within
    the cap, any sequence of additions leaves the most recent
    [max_history_size] records of everything the history was given, in
    insertion order, each stamped with the time of its addition unless it
    brought a timestamp; the history never exceeds the cap, and the cap
    itself does not change. *)
Theorem history_keeps_most_recent (entries : list (Dict * datetime))
    (e : ToolEntryDTO) :
  1 <= max_history_size e ->
  Z.of_nat (length (execution_history e)) <= max_history_size e ->
  execution_history (add_all_to_execution_history e entries)
  = most_recent (Z.to_nat (max_history_size e))
      (execution_history e ++ map (fun r => stamped r.1 r.2) entries)%list /\
  Z.of_nat (length (execution_history (add_all_to_execution_history e entries)))
  <= max_history_size e /\
  max_history_size (add_all_to_execution_history e entries) = max_history_size e.
Proof.
  intros Hpos Hlen. split; [now apply add_all_history|].
  split; [now apply add_all_history_bounded | apply add_all_cap].
Qed.

(** X20. [record_error] puts the entry in ERROR, counts the error, keeps
    its message and time, and leaves the execution statistics alone; with
    a cap of at least 1 the last record of the history is then the failure
    record with the message and the time of the error. *)
Theorem record_error_effect (e : ToolEntryDTO) (msg : string) (now : datetime) :
  1 <= max_history_size e ->
  let e' := record_error e msg now in
  status e' = ERROR /\
  error_count e' = error_count e + 1 /\
  last_error e' = Some msg /\
  last_error_time e' = Some now /\
  execution_count e' = execution_count e /\
  total_execution_time e' = total_execution_time e /\
  average_execution_time e' = average_execution_time e /\
  last (execution_history e')
  = Some (<["error" := VStr msg]>
            (<["success" := VBool false]>
               (<["timestamp" := VStr (isoformat now)]> ∅))).
Proof.
  intros Hcap e'. subst e'. unfold record_error.
  match goal with
  | |- context [add_to_execution_history ?e0 ?r ?t] =>
      pose proof (add_to_execution_history_history e0 r t Hcap) as Hhist;
      rewrite (add_to_execution_history_shape e0 r t)
  end.
  simpl. repeat split.
  rewrite Hhist. simpl max_history_size. simpl execution_history.
  rewrite most_recent_last by lia. f_equal.
Qed.

Lemma get_recent_executions_slices_witness :
  get_recent_executions session_entry 1
  = most_recent 1 (execution_history session_entry) /\
  length (get_recent_executions session_entry 1) = 1%nat.
Proof.
  destruct (get_recent_executions_slices session_entry) as [Hpos _].
  destruct (Hpos 1) as (Heq & Hlen & _); [lia|].
  split; [exact Heq | exact Hlen].
Defined.

Lemma history_keeps_most_recent_witness :
  length (execution_history
            (add_all_to_execution_history
               (sample_entry "t2" stub_tool "Two" "" [] [] READY 2)
               [(∅, epoch); (stub_result, later); (query_context, later)]))
  = 2%nat.
Proof.
  destruct (history_keeps_most_recent
              [(∅, epoch); (stub_result, later); (query_context, later)]
              (sample_entry "t2" stub_tool "Two" "" [] [] READY 2))
    as (Heq & _ & _); [simpl; lia | simpl; lia |].
  rewrite Heq. reflexivity.
Defined.

Lemma record_error_effect_witness :
  status (record_error cost_entry "boom" later) = ERROR /\
  error_count (record_error cost_entry "boom" later) = 1.
Proof.
  destruct (record_error_effect cost_entry "boom" later) as (Hs & Hc & _).
  - simpl. lia.
  - split; [exact Hs | exact Hc].
Defined.

(** ** More on the parallel branch *)

Section ParallelBatch.

Variable py_str : Dict -> string.





End ParallelBatch.


(** ** Statistics *)

Lemma status_filter_insert (s : ToolStatusENUM) (m : gmap string ToolEntryDTO)
    (i : string) (x : ToolEntryDTO) :
  m !! i = None ->
  size (filter (fun p : string * ToolEntryDTO => status_eqb (status p.2) s = true)
          (<[i := x]> m))
  = ((if status_eqb (status x) s then 1 else 0)
     + size (filter (fun p : string * ToolEntryDTO =>
                       status_eqb (status p.2) s = true) m))%nat.
Proof.
  intros Hnone. destruct (status_eqb (status x) s) eqn:Hs.
  - rewrite map_filter_insert_True by exact Hs.
    rewrite map_size_insert_None; [reflexivity|].
    apply map_lookup_filter_None. now left.
  - rewrite map_filter_insert_not'; [reflexivity| |].
    + simpl. now rewrite Hs.
    + intros y Hy. congruence.
Qed.

(** Ready, uninitialized and failed tools are counted once each. *)
Lemma status_counts_partition (m : gmap string ToolEntryDTO) :
  (size (filter (fun p : string * ToolEntryDTO =>
                   status_eqb (status p.2) READY = true) m)
   + size (filter (fun p : string * ToolEntryDTO =>
                     status_eqb (status p.2) UNINITIALIZED = true) m)
   + size (filter (fun p : string * ToolEntryDTO =>
                     status_eqb (status p.2) ERROR = true) m)
   <= size m)%nat.
Proof.
  induction m as [|i x m Hnone IH] using map_ind.
  - rewrite !map_filter_empty, map_size_empty. lia.
  - rewrite !status_filter_insert by exact Hnone.
    rewrite map_size_insert_None by exact Hnone.
    destruct (status x); simpl; lia.
Qed.

Lemma capacity_percentage (n mx : Z) :
  0 <= n <= mx -> 0 < mx ->
  (0 <= inject_Z n / inject_Z mx * 100 <= 100)%Q.
Proof.
  intros [Hn Hle] Hpos.
  assert (0 < inject_Z mx)%Q as Hmx by (unfold Qlt; simpl; lia).
  assert (0 <= inject_Z n)%Q as Hq by (unfold Qle; simpl; lia).
  assert (inject_Z n <= inject_Z mx)%Q as Hqle by (unfold Qle; simpl; lia).
  assert (0 <= inject_Z n / inject_Z mx)%Q as H0.
  { apply Qle_shift_div_l; [exact Hmx|]. lra. }
  assert (inject_Z n / inject_Z mx <= 1)%Q as H1.
  { apply Qle_shift_div_r; [exact Hmx|]. lra. }
  split; lra.
Qed.

Section SessionStatistics.

Variable py_str : Dict -> string.

(** X22. In the statistics of a session the ready, uninitialized and
    failed tools together never exceed [total_tools]; [total_tools] is
    [total_added - total_removed] and at most the capacity the registry
    was created with; [ready_tools] is [count_ready()]; and
    [capacity_used] is a percentage between 0 and 100 (0 when the capacity
    is not positive). *)
Theorem session_statistics_bounds (sid : string) (mx : Z) (now : datetime)
    (evs : list SessionEvent) :
  let self := run_session py_str (new_manager sid mx now) evs in
  let st := get_statistics self in
  0 <= stat_ready_tools st /\
  0 <= stat_uninitialized_tools st /\
  0 <= stat_error_tools st /\
  stat_ready_tools st + stat_uninitialized_tools st + stat_error_tools st
  <= stat_total_tools st /\
  stat_ready_tools st = count_ready self /\
  stat_total_tools st = stat_total_added st - stat_total_removed st /\
  stat_total_tools st <= Z.max 0 mx /\
  stat_max_tools st = mx /\
  (0 <= stat_capacity_used st <= 100)%Q /\
  (mx <= 0 -> stat_capacity_used st = 0%Q).
Proof.
  intros self st.
  pose proof (run_session_ok py_str evs _ (registry_ok_new sid mx now)) as Hok.
  pose proof (run_session_max_tools py_str evs (new_manager sid mx now)) as Hmx.
  fold self in Hok, Hmx. simpl in Hmx.
  pose proof (status_counts_partition (_tool_map self)) as Hpart.
  pose proof (ok_capacity _ Hok) as Hcap. pose proof (ok_counters _ Hok) as Hcnt.
  subst st. unfold get_statistics, count_ready, get_ready_tools,
    get_tools_by_status.
  cbn [stat_ready_tools stat_uninitialized_tools stat_error_tools
       stat_total_tools stat_total_added stat_total_removed stat_max_tools
       stat_capacity_used].
  unfold counters_consistent, count in *. rewrite Hmx in *.
  repeat (split; [first [lia | reflexivity | assumption]|]).
  destruct (Z.ltb_spec 0 mx) as [Hpos|Hneg].
  - split; [|lia]. apply capacity_percentage; lia.
  - split; [lra | reflexivity].
Qed.

End SessionStatistics.

(** ** Background initialization *)



(** ** Sample runs of the extra properties *)

Lemma execute_tool_refuses_witness :
  execute_tool no_str cost_registry "missing" query_context fixed_clock
  = (failure_result "Tool missing not found" "missing", cost_registry,
     query_context).
Proof.
  apply (execute_tool_refuses no_str cost_registry "missing" query_context
           fixed_clock).
  left. reflexivity.
Defined.

Lemma execute_tool_lazy_init_success_witness :
  exists self' entry',
    execute_tool no_str lazy_registry "slow" query_context fixed_clock
    = (stub_result, self', query_context) /\
    _tool_map self' !! "slow" = Some entry' /\
    status entry' = READY /\
    initialized_at entry' = Some epoch /\
    execution_count entry' = execution_count (lazy_entry "slow") + 1 /\
    _initialization_tasks self' !! "slow" = None /\
    total_executions self' = total_executions lazy_registry + 1.
Proof.
  apply (execute_tool_lazy_init_success no_str lazy_registry "slow"
           (lazy_entry "slow") query_context fixed_clock stub_result
           query_context 0.25); try reflexivity.
  right. reflexivity.
Defined.

Lemma execute_tool_lazy_init_failure_witness :
  exists self' entry',
    execute_tool no_str lazy_registry "crashing" query_context fixed_clock
    = (failure_result "Tool crashing is not ready (status: error)" "crashing",
       self', query_context) /\
    _tool_map self' !! "crashing" = Some entry' /\
    status entry' = ERROR /\
    execution_count entry' = execution_count (lazy_entry "crashing") /\
    _initialization_tasks self' !! "crashing" = None /\
    total_executions self' = total_executions lazy_registry /\
    error_count entry' = error_count (lazy_entry "crashing") + 1 /\
    last_error entry' = Some "no engine".
Proof.
  apply (execute_tool_lazy_init_failure no_str lazy_registry "crashing"
           (lazy_entry "crashing") query_context fixed_clock
           (InitRaises "no engine")); try reflexivity.
  discriminate.
Defined.

Lemma execute_tool_files_record_witness :
  exists entry' record text,
    _tool_map
      (execute_tool no_str cost_registry "cost_estimator" query_context
         fixed_clock).1.2 !! "cost_estimator" = Some entry' /\
    last (execution_history entry') = Some record /\
    last_executed entry' = Some later /\
    record !! "query" = Some (VStr "estimate my cost") /\
    record !! "success" = Some (VBool true) /\
    record !! "execution_time" = Some (VFloat 0.5) /\
    record !! "timestamp" = Some (VStr (isoformat later)) /\
    record !! "result" = Some (VStr text) /\
    (String.length text <= 200)%nat /\
    Str.str_in newline text = false.
Proof.
  destruct (execute_tool_files_record no_str cost_registry "cost_estimator"
              cost_registered_entry query_context fixed_clock stub_result
              query_context 0.5)
    as (entry' & record & text & H1 & H2 & H3 & H4 & H5 & H6 & H7 & H8 & H9
        & H10 & _);
    try reflexivity.
  { vm_compute. discriminate. }
  exists entry', record, text. repeat split; assumption.
Defined.

Lemma add_then_remove_restores_map_witness :
  _tool_map (remove_tool cost_registry "cost_estimator").2
  = _tool_map (new_manager "session-1" 2 epoch).
Proof.
  destruct (add_then_remove_restores_map (new_manager "session-1" 2 epoch)
              "cost_estimator" stub_tool "" "Estimates project costs" "" None
              "" None (Some ["cost"; "estimate"]) None epoch cost_registry)
    as (_ & Hmap & _); [reflexivity|].
  exact Hmap.
Defined.

Lemma add_then_get_witness :
  exists e,
    get_tool cost_registry "cost_estimator" = Some e /\
    name e = "cost_estimator" /\ keywords e = ["cost"; "estimate"] /\
    capabilities e = [] /\ status e = READY.
Proof.
  destruct (add_then_get (new_manager "session-1" 2 epoch)
              "cost_estimator" stub_tool "" "Estimates project costs" "" None
              "" None (Some ["cost"; "estimate"]) None epoch cost_registry)
    as [(e & Hget & _ & _ & Hname & _ & _ & _ & _ & _ & Hcaps & Hkws & _ & _
         & _ & _ & Hstatus & _) _]; [reflexivity|].
  exists e. split; [exact Hget|]. split; [exact Hname|].
  split; [exact Hkws|]. split; [exact Hcaps | exact Hstatus].
Defined.

Lemma add_tool_empty_id_raises_witness :
  add_tool cost_registry "" stub_tool "Nameless" "" "" None "" None None None
    later
  = (Exc "ValueError" "tool_id is required", cost_registry).
Proof.
  apply add_tool_empty_id_raises; [vm_compute; reflexivity | reflexivity].
Defined.

(** ** No second chance after a failed initialization *)

Section FailedInitialization.

Variable py_str : Dict -> string.


End FailedInitialization.


Lemma remove_tool_effect_witness :
  (remove_tool lazy_registry "slow").1 = true /\
  get_tool (remove_tool lazy_registry "slow").2 "slow" = None /\
  _initialization_tasks (remove_tool lazy_registry "slow").2 !! "slow" = None /\
  get_tool (remove_tool lazy_registry "slow").2 "crashing"
  = get_tool lazy_registry "crashing".
Proof.
  destruct (remove_tool_effect lazy_registry "slow")
    as (Hanswer & Hgone & Hhandle & Hrest).
  split; [rewrite Hanswer; vm_compute; reflexivity|]. split; [exact Hgone|].
  split; [apply Hhandle; vm_compute; eauto|].
  destruct (Hrest "crashing") as [Hsame _]; [discriminate | exact Hsame].
Defined.
